(** * Kataphraktus (Cataphract) web client and rules-engine contract

    A shallow embedding of the order-entry client
    ([frontend/src/api/orderDefinitions.ts],
    [frontend/src/components/OrderBuilder.tsx], [TickControls.tsx],
    [OrderList.tsx]) together with a model of the engine contract the client
    talks to.  JavaScript values are embedded as an inductive type, JavaScript
    numbers as IEEE 754 binary64 values ([spec_float] with [prec = 53] and
    [emax = 1024]), and JavaScript objects used as dictionaries as [gmap]s. *)

From Stdlib Require Import ZArith Lia Bool List.
From Stdlib Require Import Strings.String Strings.Ascii.
From Stdlib Require Import Floats.SpecFloat.
From stdpp Require Import base option list strings gmap.

Local Open Scope string_scope.
Local Open Scope Z_scope.

(* ===================================================================== *)
(** * 1. JavaScript numbers *)
(* ===================================================================== *)

(** A JavaScript number is a binary64 float. *)
Definition JsNumber : Type := spec_float.

Definition js_prec : Z := 53.
Definition js_emax : Z := 1024.

Definition js_NaN : JsNumber := S754_nan.
Definition js_zero : JsNumber := S754_zero false.

(** [m * 2^0] rounded to the nearest double, ties to even. *)
Definition js_of_Z (m : Z) : JsNumber := binary_normalize js_prec js_emax m 0 false.

(** [Number.isFinite(x)] *)
Definition Number_isFinite (x : JsNumber) : bool :=
  match x with
  | S754_zero _ | S754_finite _ _ _ => true
  | S754_infinity _ | S754_nan => false
  end.

(** [Number.isNaN(x)] *)
Definition Number_isNaN (x : JsNumber) : bool :=
  match x with
  | S754_nan => true
  | _ => false
  end.


(** The relational operators [x <= y] and [x < y] on numbers. *)
Definition js_leb (x y : JsNumber) : bool := SFleb x y.
Definition js_ltb (x y : JsNumber) : bool := SFltb x y.

(** [!x] is true of a number exactly for [+0], [-0] and [NaN]. *)
Definition number_falsy (x : JsNumber) : bool :=
  match x with
  | S754_zero _ | S754_nan => true
  | _ => false
  end.

(* ===================================================================== *)
(** * 2. JavaScript strings *)
(* ===================================================================== *)

(** Strings are sequences of code units below 256 (the Latin-1 range); a
    [string] of the standard library is such a sequence.  The white space of
    [String.prototype.trim] and of the numeric-string grammar in that range is
    TAB, LF, VT, FF, CR, SP and NBSP. *)
Definition is_white_space (c : ascii) : bool :=
  let n := N_of_ascii c in
  ((9 <=? n) && (n <=? 13) || (n =? 32) || (n =? 160))%N.

Fixpoint trimStart (s : string) : string :=
  match s with
  | String c r => if is_white_space c then trimStart r else s
  | EmptyString => EmptyString
  end.

Fixpoint trimEnd (s : string) : string :=
  match s with
  | String c r =>
      match trimEnd r with
      | EmptyString => if is_white_space c then EmptyString else String c EmptyString
      | r' => String c r'
      end
  | EmptyString => EmptyString
  end.

(** [s.trim()] *)
Definition trim (s : string) : string := trimEnd (trimStart s).

Definition is_empty (s : string) : bool :=
  match s with
  | EmptyString => true
  | String _ _ => false
  end.

(** [s.split(",")]: never empty, the empty string splits into [[""]]. *)
Fixpoint split_comma (s : string) : list string :=
  match s with
  | EmptyString => [EmptyString]
  | String c r =>
      if Ascii.eqb c ","%char then EmptyString :: split_comma r
      else match split_comma r with
           | w :: ws => String c w :: ws
           | [] => [String c EmptyString]
           end
  end.

(* ===================================================================== *)
(** * 3. String to number conversion *)
(* ===================================================================== *)

(** Value of a digit in the given radix, when the character is one. *)
Definition digit_value (radix : Z) (c : ascii) : option Z :=
  let n := Z.of_N (N_of_ascii c) in
  let d :=
    if (48 <=? n) && (n <=? 57) then Some (n - 48)
    else if (97 <=? n) && (n <=? 122) then Some (n - 87)
    else if (65 <=? n) && (n <=? 90) then Some (n - 55)
    else None in
  match d with
  | Some v => if v <? radix then Some v else None
  | None => None
  end.

(** Reads the longest prefix of digits: accumulated value, number of digits
    read and the rest of the string. *)
Fixpoint read_digits (radix : Z) (s : string) (acc : Z) (count : Z) : Z * Z * string :=
  match s with
  | String c r =>
      match digit_value radix c with
      | Some d => read_digits radix r (acc * radix + d) (count + 1)
      | None => (acc, count, s)
      end
  | EmptyString => (acc, count, s)
  end.

(** [m * 10^e10] for [m >= 0], correctly rounded, with the given sign. *)
Definition js_of_decimal (neg : bool) (m : Z) (e10 : Z) : JsNumber :=
  match m with
  | Z.pos p =>
      if 0 <=? e10
      then binary_round js_prec js_emax neg (p * Z.to_pos (10 ^ e10)) 0
      else SFdiv js_prec js_emax (S754_finite neg p 0)
                 (S754_finite false (Z.to_pos (10 ^ (- e10))) 0)
  | _ => S754_zero neg
  end.

(** ExponentPart, optional, up to the end of the string. *)
Definition read_exponent (s : string) : option Z :=
  match s with
  | EmptyString => Some 0
  | String c r =>
      if Ascii.eqb c "e"%char || Ascii.eqb c "E"%char then
        let '(neg, digits) :=
          match r with
          | String "-"%char r' => (true, r')
          | String "+"%char r' => (false, r')
          | _ => (false, r)
          end in
        match read_digits 10 digits 0 0 with
        | (v, n, EmptyString) =>
            if 0 <? n then Some (if neg then - v else v) else None
        | _ => None
        end
      else None
  end.

(** StrUnsignedDecimalLiteral with the sign already read. *)
Definition str_unsigned_decimal (neg : bool) (s : string) : JsNumber :=
  if String.eqb s "Infinity" then S754_infinity neg else
  let '(ip, ni, r1) := read_digits 10 s 0 0 in
  let '(m, nf, r2) :=
    match r1 with
    | String "."%char r => read_digits 10 r ip 0
    | _ => (ip, 0, r1)
    end in
  if (ni =? 0) && (nf =? 0) then js_NaN else
  match read_exponent r2 with
  | Some e => js_of_decimal neg m (e - nf)
  | None => js_NaN
  end.

(** NonDecimalIntegerLiteral body: at least one digit and nothing after. *)
Definition str_radix_integer (radix : Z) (s : string) : JsNumber :=
  match read_digits radix s 0 0 with
  | (v, n, EmptyString) => if 0 <? n then js_of_Z v else js_NaN
  | _ => js_NaN
  end.

(** StringToNumber: [Number(s)] for a string [s]. *)
Definition StringToNumber (s : string) : JsNumber :=
  match trim s with
  | EmptyString => js_zero
  | String "0"%char (String c r) as t =>
      if Ascii.eqb c "x"%char || Ascii.eqb c "X"%char then str_radix_integer 16 r
      else if Ascii.eqb c "o"%char || Ascii.eqb c "O"%char then str_radix_integer 8 r
      else if Ascii.eqb c "b"%char || Ascii.eqb c "B"%char then str_radix_integer 2 r
      else str_unsigned_decimal false t
  | String "-"%char r => str_unsigned_decimal true r
  | String "+"%char r => str_unsigned_decimal false r
  | t => str_unsigned_decimal false t
  end.

(* ===================================================================== *)
(** * 4. JavaScript values *)
(* ===================================================================== *)

(** The values a form state, a request payload or a parsed JSON text can
    hold.  Objects are plain records, listed key by key. *)
#[local] Set Warnings "-register-all".

Inductive JsValue : Type :=
  | VUndefined
  | VNull
  | VBool (b : bool)
  | VNum (n : JsNumber)
  | VStr (s : string)
  | VArr (items : list JsValue)
  | VObj (props : list (string * JsValue)).

(** [Number(v)].  An array converts through its string form: the empty array
    gives [+0], a one-element array converts like the string form of its
    element, and two or more elements give [NaN] because of the comma.  A
    plain object gives [NaN]. *)
Fixpoint ToNumber (v : JsValue) : JsNumber :=
  match v with
  | VUndefined => js_NaN
  | VNull => js_zero
  | VBool b => if b then js_of_Z 1 else js_zero
  | VNum n => n
  | VStr s => StringToNumber s
  | VArr [] => js_zero
  | VArr [x] =>
      match x with
      | VUndefined | VNull => js_zero
      | VBool _ => js_NaN
      | VNum (S754_zero _) => js_zero
      | VNum n => n
      | VStr s => StringToNumber s
      | VArr _ => ToNumber x
      | VObj _ => js_NaN
      end
  | VArr _ => js_NaN
  | VObj _ => js_NaN
  end.

(** [Boolean(v)], the truthiness that [!v] and [v ? a : b] test. *)
Definition ToBoolean (v : JsValue) : bool :=
  match v with
  | VUndefined | VNull => false
  | VBool b => b
  | VNum n => negb (number_falsy n)
  | VStr s => negb (is_empty s)
  | VArr _ | VObj _ => true
  end.

(** [v === ""] *)
Definition is_empty_string (v : JsValue) : bool :=
  match v with
  | VStr EmptyString => true
  | _ => false
  end.

(** [record[key]] on an object used as a dictionary: a missing key reads as
    [undefined]. *)
Definition get_prop (record : gmap string JsValue) (key : string) : JsValue :=
  default VUndefined (record !! key).

(** The double-quote character, for texts that contain one. *)
Definition quote : string := String (ascii_of_nat 34) EmptyString.

(* ===================================================================== *)
(** * 5. Order definitions ([api/orderDefinitions.ts]) *)
(* ===================================================================== *)

Inductive OrderFieldType : Type :=
  | ft_text
  | ft_number
  | ft_textarea
  | ft_checkbox
  | ft_select
  | ft_list
  | ft_movement_legs
  | ft_json.

Inductive ListValueType : Type := lv_string | lv_number.

(** An optional property is [None] when the literal leaves it out.  An entry
    of [options] is the pair of its [value] and its [label]. *)
Record OrderFieldDefinition : Type := {
  name : string;
  label : string;
  type : OrderFieldType;
  required : option bool;
  helper : option string;
  options : option (list (string * string));
  placeholder : option string;
  listValueType : option ListValueType;
  defaultValue : option JsValue
}.

Record OrderDefinition : Type := {
  def_label : string;
  requiresArmy : bool;
  description : string;
  fields : list OrderFieldDefinition;
  advancedNote : option string
}.

Definition def_move : OrderDefinition :=
  {| def_label := "March";
     requiresArmy := true;
     description := "Plan a series of legs to reposition an army.";
     fields := [
      {| name := "movement_type"; label := "Movement Style"; type := ft_select;
         required := None; helper := Some "Forced marches strain morale; night marches risk mishaps.";
         options := Some [("standard", "Standard"); ("forced", "Forced March"); ("night", "Night March")];
         placeholder := None; listValueType := None;
         defaultValue := Some (VStr "standard") |};
      {| name := "weather_modifier"; label := "Weather Modifier"; type := ft_number;
         required := None; helper := Some "Negative values slow travel; positive values speed it.";
         options := None;
         placeholder := None; listValueType := None;
         defaultValue := Some (VNum (js_of_Z 0)) |};
      {| name := "legs"; label := "Legs"; type := ft_movement_legs;
         required := None; helper := Some "Add each hex transition with its distance.";
         options := None;
         placeholder := None; listValueType := None;
         defaultValue := None |}
     ];
     advancedNote := None |}.

Definition def_rest : OrderDefinition :=
  {| def_label := "Rest";
     requiresArmy := true;
     description := "Recover morale and readiness by remaining in place.";
     fields := [
      {| name := "duration_days"; label := "Days of Rest"; type := ft_number;
         required := None; helper := Some "Army will remain idle for this many days.";
         options := None;
         placeholder := None; listValueType := None;
         defaultValue := Some (VNum (js_of_Z 1)) |}
     ];
     advancedNote := None |}.

Definition def_forage : OrderDefinition :=
  {| def_label := "Forage";
     requiresArmy := true;
     description := "Gather supplies from neighbouring hexes.";
     fields := [
      {| name := "hex_ids"; label := "Hex IDs"; type := ft_list;
         required := None; helper := Some "Comma-separated hex identifiers for the foraging route.";
         options := None;
         placeholder := Some "12, 15, 18"; listValueType := Some lv_number;
         defaultValue := None |}
     ];
     advancedNote := None |}.

Definition def_torch : OrderDefinition :=
  {| def_label := "Torch";
     requiresArmy := true;
     description := "Burn and devastate selected hexes.";
     fields := [
      {| name := "hex_ids"; label := "Hex IDs"; type := ft_list;
         required := None; helper := None;
         options := None;
         placeholder := Some "12, 15, 18"; listValueType := Some lv_number;
         defaultValue := None |}
     ];
     advancedNote := None |}.

Definition def_supply_transfer : OrderDefinition :=
  {| def_label := "Transfer Supplies";
     requiresArmy := true;
     description := "Share rations with an allied army.";
     fields := [
      {| name := "target_army_id"; label := "Recipient Army ID"; type := ft_number;
         required := Some true; helper := None;
         options := None;
         placeholder := None; listValueType := None;
         defaultValue := None |};
      {| name := "amount"; label := "Amount of Supplies"; type := ft_number;
         required := Some true; helper := None;
         options := None;
         placeholder := None; listValueType := None;
         defaultValue := None |}
     ];
     advancedNote := None |}.

Definition def_besiege : OrderDefinition :=
  {| def_label := "Lay Siege";
     requiresArmy := true;
     description := "Begin or reinforce a siege on a stronghold.";
     fields := [
      {| name := "stronghold_id"; label := "Stronghold ID"; type := ft_number;
         required := Some true; helper := None;
         options := None;
         placeholder := None; listValueType := None;
         defaultValue := None |};
      {| name := "siege_engines"; label := "Siege Engines Committed"; type := ft_number;
         required := None; helper := Some "Bonus applied to threshold reduction.";
         options := None;
         placeholder := None; listValueType := None;
         defaultValue := None |}
     ];
     advancedNote := None |}.

Definition def_assault : OrderDefinition :=
  {| def_label := "Assault";
     requiresArmy := true;
     description := "Resolve a full assault on a besieged stronghold.";
     fields := [
      {| name := "stronghold_id"; label := "Stronghold ID"; type := ft_number;
         required := Some true; helper := None;
         options := None;
         placeholder := None; listValueType := None;
         defaultValue := None |};
      {| name := "pillage"; label := "Pillage on success"; type := ft_checkbox;
         required := None; helper := None;
         options := None;
         placeholder := None; listValueType := None;
         defaultValue := None |};
      {| name := "attacker_modifier"; label := "Attacker Modifier"; type := ft_number;
         required := None; helper := None;
         options := None;
         placeholder := None; listValueType := None;
         defaultValue := Some (VNum (js_of_Z 0)) |};
      {| name := "defender_modifier"; label := "Defender Modifier"; type := ft_number;
         required := None; helper := None;
         options := None;
         placeholder := None; listValueType := None;
         defaultValue := Some (VNum (js_of_Z 0)) |};
      {| name := "attacker_fixed_roll"; label := "Attacker Fixed Roll"; type := ft_number;
         required := None; helper := Some "Optional deterministic roll for testing.";
         options := None;
         placeholder := None; listValueType := None;
         defaultValue := None |};
      {| name := "defender_fixed_roll"; label := "Defender Fixed Roll"; type := ft_number;
         required := None; helper := None;
         options := None;
         placeholder := None; listValueType := None;
         defaultValue := None |}
     ];
     advancedNote := None |}.

Definition def_embark : OrderDefinition :=
  {| def_label := "Embark";
     requiresArmy := true;
     description := "Load troops onto a transport fleet.";
     fields := [
      {| name := "ship_id"; label := "Ship ID"; type := ft_number;
         required := Some true; helper := None;
         options := None;
         placeholder := None; listValueType := None;
         defaultValue := None |}
     ];
     advancedNote := None |}.

Definition def_disembark : OrderDefinition :=
  {| def_label := "Disembark";
     requiresArmy := true;
     description := "Unload troops from a transport fleet.";
     fields := [
      {| name := "ship_id"; label := "Ship ID"; type := ft_number;
         required := Some true; helper := None;
         options := None;
         placeholder := None; listValueType := None;
         defaultValue := None |}
     ];
     advancedNote := None |}.

Definition def_naval_move : OrderDefinition :=
  {| def_label := "Naval Move";
     requiresArmy := false;
     description := "Direct a fleet along a plotted course.";
     fields := [
      {| name := "ship_id"; label := "Ship ID"; type := ft_number;
         required := Some true; helper := None;
         options := None;
         placeholder := None; listValueType := None;
         defaultValue := None |};
      {| name := "route"; label := "Route Hex IDs"; type := ft_list;
         required := None; helper := None;
         options := None;
         placeholder := Some "45, 46, 52"; listValueType := Some lv_number;
         defaultValue := None |}
     ];
     advancedNote := None |}.

Definition def_send_message : OrderDefinition :=
  {| def_label := "Dispatch Message";
     requiresArmy := false;
     description := "Send a courier between commanders.";
     fields := [
      {| name := "recipient_id"; label := "Recipient Commander ID"; type := ft_number;
         required := Some true; helper := None;
         options := None;
         placeholder := None; listValueType := None;
         defaultValue := None |};
      {| name := "content"; label := "Message"; type := ft_textarea;
         required := Some true; helper := None;
         options := None;
         placeholder := None; listValueType := None;
         defaultValue := None |};
      {| name := "territory_type"; label := "Territory"; type := ft_select;
         required := None; helper := None;
         options := Some [("friendly", "Friendly"); ("neutral", "Neutral"); ("hostile", "Hostile")];
         placeholder := None; listValueType := None;
         defaultValue := Some (VStr "friendly") |}
     ];
     advancedNote := None |}.

Definition def_launch_operation : OrderDefinition :=
  {| def_label := "Launch Operation";
     requiresArmy := false;
     description := "Resolve intelligence, sabotage, or assassination missions.";
     fields := [
      {| name := "operation_type"; label := "Operation Type"; type := ft_select;
         required := None; helper := None;
         options := Some [("intelligence", "Intelligence"); ("sabotage", "Sabotage"); ("assassination", "Assassination")];
         placeholder := None; listValueType := None;
         defaultValue := Some (VStr "intelligence") |};
      {| name := "target_descriptor"; label := "Target Descriptor (JSON)"; type := ft_json;
         required := None; helper := Some ("Describe the target in JSON, e.g. {" ++ quote ++ "stronghold_id" ++ quote ++ ": 12}.");
         options := None;
         placeholder := None; listValueType := None;
         defaultValue := None |};
      {| name := "difficulty_modifier"; label := "Difficulty Modifier"; type := ft_number;
         required := None; helper := None;
         options := None;
         placeholder := None; listValueType := None;
         defaultValue := Some (VNum (js_of_Z 0)) |};
      {| name := "loot_cost"; label := "Loot Cost"; type := ft_number;
         required := None; helper := Some "Defaults to rulebook value if omitted.";
         options := None;
         placeholder := None; listValueType := None;
         defaultValue := None |};
      {| name := "territory_type"; label := "Territory"; type := ft_select;
         required := None; helper := None;
         options := Some [("friendly", "Friendly"); ("neutral", "Neutral"); ("hostile", "Hostile")];
         placeholder := None; listValueType := None;
         defaultValue := Some (VStr "friendly") |};
      {| name := "complexity"; label := "Operation Complexity"; type := ft_select;
         required := None; helper := None;
         options := Some [("standard", "Standard"); ("complex", "Complex"); ("audacious", "Audacious")];
         placeholder := None; listValueType := None;
         defaultValue := Some (VStr "standard") |}
     ];
     advancedNote := Some "Provide operation_id to continue an existing plot." |}.

Definition def_raise_army : OrderDefinition :=
  {| def_label := "Raise Army";
     requiresArmy := false;
     description := "Launch or complete a recruitment project from a stronghold.";
     fields := [
      {| name := "stronghold_id"; label := "Stronghold ID"; type := ft_number;
         required := Some true; helper := None;
         options := None;
         placeholder := None; listValueType := None;
         defaultValue := None |};
      {| name := "new_commander_id"; label := "Commander ID"; type := ft_number;
         required := Some true; helper := None;
         options := None;
         placeholder := None; listValueType := None;
         defaultValue := None |};
      {| name := "infantry_unit_type_id"; label := "Infantry Unit Type ID"; type := ft_number;
         required := Some true; helper := None;
         options := None;
         placeholder := None; listValueType := None;
         defaultValue := None |};
      {| name := "cavalry_unit_type_id"; label := "Cavalry Unit Type ID"; type := ft_number;
         required := None; helper := Some "Optional.";
         options := None;
         placeholder := None; listValueType := None;
         defaultValue := None |};
      {| name := "rally_hex_id"; label := "Rally Hex ID"; type := ft_number;
         required := Some true; helper := None;
         options := None;
         placeholder := None; listValueType := None;
         defaultValue := None |};
      {| name := "army_name"; label := "Army Name"; type := ft_text;
         required := None; helper := None;
         options := None;
         placeholder := None; listValueType := None;
         defaultValue := None |}
     ];
     advancedNote := Some "If _project_id is returned, re-issue the order with that id to finish recruitment." |}.

Definition def_harry : OrderDefinition :=
  {| def_label := "Harry";
     requiresArmy := true;
     description := "Conduct raiding actions with selected detachments.";
     fields := [
      {| name := "detachment_ids"; label := "Detachment IDs"; type := ft_list;
         required := None; helper := Some "Detachment identifiers belonging to the acting army.";
         options := None;
         placeholder := Some "11, 12"; listValueType := Some lv_number;
         defaultValue := None |};
      {| name := "target_army_id"; label := "Target Army ID"; type := ft_number;
         required := Some true; helper := None;
         options := None;
         placeholder := None; listValueType := None;
         defaultValue := None |};
      {| name := "objective"; label := "Objective"; type := ft_select;
         required := None; helper := None;
         options := Some [("kill", "Kill"); ("steal", "Steal"); ("burn", "Burn")];
         placeholder := None; listValueType := None;
         defaultValue := Some (VStr "kill") |}
     ];
     advancedNote := None |}.

Definition ORDER_DEFINITIONS : list (string * OrderDefinition) :=
  [ ("move", def_move);
    ("rest", def_rest);
    ("forage", def_forage);
    ("torch", def_torch);
    ("supply_transfer", def_supply_transfer);
    ("besiege", def_besiege);
    ("assault", def_assault);
    ("embark", def_embark);
    ("disembark", def_disembark);
    ("naval_move", def_naval_move);
    ("send_message", def_send_message);
    ("launch_operation", def_launch_operation);
    ("raise_army", def_raise_army);
    ("harry", def_harry) ].

(** [ORDER_DEFINITIONS[orderType]] *)
Fixpoint lookup_definition (table : list (string * OrderDefinition)) (orderType : string)
  : option OrderDefinition :=
  match table with
  | [] => None
  | (key, definition) :: rest =>
      if String.eqb key orderType then Some definition
      else lookup_definition rest orderType
  end.

(** The property names every object inherits from [Object.prototype]: under
    one of them [ORDER_DEFINITIONS[orderType]] is not [undefined] but an
    object without [requiresArmy] and without [fields]. *)
Definition OBJECT_PROTOTYPE_KEYS : list string :=
  [ "constructor"; "__proto__"; "hasOwnProperty"; "isPrototypeOf";
    "propertyIsEnumerable"; "toLocaleString"; "toString"; "valueOf";
    "__defineGetter__"; "__defineSetter__"; "__lookupGetter__"; "__lookupSetter__" ].

(** [Object.keys(ORDER_DEFINITIONS)] *)
Definition ORDER_TYPES : list string := map fst ORDER_DEFINITIONS.

(* ===================================================================== *)
(** * 6. Request and response records ([api/types.ts]) *)
(* ===================================================================== *)

(** [number | null] and [string | null] are options, [None] being [null]. *)
Module OrderSummary.
Record t : Type := {
    id : JsNumber;
    army_id : option JsNumber;
    commander_id : JsNumber;
    order_type : string;
    status : string;
    priority : JsNumber;
    execute_day : option JsNumber;
    execute_part : option string;
    parameters : gmap string JsValue;
    result : option (gmap string JsValue)
}.
End OrderSummary.

(** The body of an order-creation request.  [commander_id] is filled from a
    state variable of type [number | null], so the record keeps that type. *)
Module OrderCreateRequest.
Record t : Type := {
    army_id : option JsNumber;
    commander_id : option JsNumber;
    order_type : string;
    parameters : gmap string JsValue;
    execute_day : option JsNumber;
    execute_part : option string;
    priority : JsNumber
}.
End OrderCreateRequest.

(* ===================================================================== *)
(** * 7. Tick controls ([components/TickControls.tsx]) *)
(* ===================================================================== *)

(** [handleAdvance], the submit handler of the advance form, on the [days]
    state it reads: the argument of [advanceTick.mutate], which
    [api.advanceTick] posts as [{ days }], or [None] when the handler returns
    without a request. *)
Definition handleAdvance (days : string) : option JsNumber :=
  let count := StringToNumber days in
  if negb (Number_isFinite count) || js_leb count js_zero then None
  else Some count.

(** ** The advance form

    [<form onSubmit={handleAdvance}>] holds one control,
    [<input type="number" min={1} value={days} onChange={...}>], and a submit
    button with [disabled={advanceTick.isPending}].  The form has no
    [noValidate] attribute, so the browser validates the control before it
    fires the submit event. *)

(** The attributes of a number control that take part in its validation: the
    minimum, when there is one, and the allowed value step. *)
Module NumberInput.
Record t : Type := {
  min : option JsNumber;
  step : JsNumber
}.
End NumberInput.

(** The day-count control: [min={1}] and no [step] attribute, which leaves the
    default step of a number control, 1; no [max] and no [required]. *)
Definition DAYS_INPUT : NumberInput.t :=
  {| NumberInput.min := Some (js_of_Z 1); NumberInput.step := js_of_Z 1 |}.

Definition is_some {A : Type} (o : option A) : bool :=
  match o with
  | Some _ => true
  | None => false
  end.

(** A valid floating-point number of HTML: an optional "-", then digits, or
    digits "." digits, or "." digits, then an optional exponent ("e" or "E",
    an optional sign, digits). *)
Definition valid_floating_point_number (value : string) : bool :=
  let unsigned :=
    match value with
    | String "-"%char r => r
    | _ => value
    end in
  let '(_, ni, r1) := read_digits 10 unsigned 0 0 in
  match r1 with
  | String "."%char r =>
      let '(_, nf, r2) := read_digits 10 r 0 0 in
      (0 <? nf) && is_some (read_exponent r2)
  | _ => (0 <? ni) && is_some (read_exponent r1)
  end.

(** What a number control passes to [onChange] as [event.target.value]: its
    value sanitization leaves a valid floating-point number or the empty
    string. *)
Definition number_input_reports (value : string) : bool :=
  is_empty value || valid_floating_point_number value.

(** The number a number control reads from its value, when it reads one: none
    from the empty string or from a value beyond the range of the doubles,
    else the double nearest to the valid floating-point number, which is what
    [Number] gives for such a text. *)
Definition input_number (value : string) : option JsNumber :=
  if valid_floating_point_number value && Number_isFinite (StringToNumber value)
  then Some (StringToNumber value)
  else None.

(** The mathematical value of a finite number, as [m * 2^e]. *)
Definition dyadic (x : JsNumber) : Z * Z :=
  match x with
  | S754_finite s m e => (if s then Z.neg m else Z.pos m, e)
  | _ => (0, 0)
  end.

(** [x - base] is an integral multiple of [step], over the reals, for finite
    numbers and a step other than zero: the three are brought to their least
    exponent. *)
Definition integral_multiple (x base step : JsNumber) : bool :=
  let '(mx, ex) := dyadic x in
  let '(mb, eb) := dyadic base in
  let '(ms, es) := dyadic step in
  let k := Z.min (Z.min ex eb) es in
  (mx * 2 ^ (ex - k) - mb * 2 ^ (eb - k)) mod (ms * 2 ^ (es - k)) =? 0.

(** The control suffers from an underflow: it has a minimum, its value reads
    as a number, and that number is less than the minimum. *)
Definition suffers_underflow (input : NumberInput.t) (value : string) : bool :=
  match NumberInput.min input, input_number value with
  | Some least, Some n => js_ltb n least
  | _, _ => false
  end.

(** The step base of a control without a [value] attribute of its own: the
    minimum when there is one, else zero. *)
Definition step_base (input : NumberInput.t) : JsNumber :=
  default js_zero (NumberInput.min input).

(** The control suffers from a step mismatch: its value reads as a number
    which is not the step base plus an integral multiple of the step. *)
Definition suffers_step_mismatch (input : NumberInput.t) (value : string) : bool :=
  match input_number value with
  | Some n => negb (integral_multiple n (step_base input) (NumberInput.step input))
  | None => false
  end.

Definition satisfies_constraints (input : NumberInput.t) (value : string) : bool :=
  negb (suffers_underflow input value) && negb (suffers_step_mismatch input value).

(** A submission of the advance form, by the button or from the keyboard, with
    [days] in the control: nothing happens while the button is disabled or
    while the control does not satisfy its constraints; otherwise the submit
    event runs [handleAdvance].  (A control holding text that it could not
    read reports the empty string and is not submitted either; here the empty
    string always goes on to the handler.) *)
Definition submitAdvance (isPending : bool) (days : string) : option JsNumber :=
  if isPending then None
  else if satisfies_constraints DAYS_INPUT days then handleAdvance days
  else None.

(* ===================================================================== *)
(** * 8. Order ledger ([components/OrderList.tsx]) *)
(* ===================================================================== *)

(** The Cancel button of a row: [onClick={() => onCancel(order.id)}], given
    by the id the click passes on, and [disabled={isCancelling}]. *)
Record CancelButton : Type := {
  onClick : JsNumber;
  disabled : bool
}.

(** The last cell of an order's row: the Cancel button, or nothing. *)
Definition cancel_button (isCancelling : bool) (order : OrderSummary.t)
  : option CancelButton :=
  if String.eqb (OrderSummary.status order) "pending"
     || String.eqb (OrderSummary.status order) "executing"
  then Some {| onClick := OrderSummary.id order; disabled := isCancelling |}
  else None.

(** A click on the last cell of a row: the argument [onCancel] is called
    with, or [None] when nothing is called, because the cell is empty or the
    button is disabled. *)
Definition cancel_click (isCancelling : bool) (order : OrderSummary.t)
  : option JsNumber :=
  match cancel_button isCancelling order with
  | Some button => if disabled button then None else Some (onClick button)
  | None => None
  end.

(** The order ids for which a click in the ledger asks for a cancellation. *)
Definition cancellable_orders (isCancelling : bool) (orders : list OrderSummary.t)
  : list JsNumber :=
  omap (cancel_click isCancelling) orders.

(* ===================================================================== *)
(** * 9. Order builder ([components/OrderBuilder.tsx]) *)
(* ===================================================================== *)

Record MovementLegForm : Type := {
  to_hex_id : string;
  distance_miles : string;
  on_road : bool;
  has_river_ford : bool;
  is_night : bool;
  has_fork : bool;
  alternate_hex_id : string
}.

Definition defaultLeg : MovementLegForm :=
  {| to_hex_id := ""; distance_miles := ""; on_road := true;
     has_river_ford := false; is_night := false; has_fork := false;
     alternate_hex_id := "" |}.

Definition DAY_PART_OPTIONS : list (string * string) :=
  [ ("", "Automatic"); ("morning", "Morning"); ("midday", "Midday");
    ("evening", "Evening"); ("night", "Night") ].

(** The component's state variables, with the [selectedArmyId] prop that the
    page owns and hands down. *)
Record BuilderState : Type := {
  orderType : string;
  fieldState : gmap string JsValue;
  legs : list MovementLegForm;
  commanderId : option JsNumber;
  executeDay : string;
  executePart : string;
  priority : JsNumber;
  error : option string;
  selectedArmyId : option JsNumber
}.

(** [!id] for an id of type [number | null]. *)
Definition id_falsy (id : option JsNumber) : bool :=
  match id with
  | None => true
  | Some n => number_falsy n
  end.

(** The filter of [handleSubmit] on the rows of the leg table. *)
Definition leg_filled (leg : MovementLegForm) : bool :=
  negb (is_empty (trim (to_hex_id leg))) && negb (is_empty (trim (distance_miles leg))).

(** The object literal built for a row. *)
Definition prepare_leg (leg : MovementLegForm) : JsValue :=
  VObj [ ("to_hex_id", VNum (StringToNumber (to_hex_id leg)));
         ("distance_miles", VNum (StringToNumber (distance_miles leg)));
         ("on_road", VBool (on_road leg));
         ("has_river_ford", VBool (has_river_ford leg));
         ("is_night", VBool (is_night leg));
         ("has_fork", VBool (has_fork leg));
         ("alternate_hex_id",
           if negb (is_empty (alternate_hex_id leg))
           then VNum (StringToNumber (alternate_hex_id leg))
           else VUndefined) ].

Definition preparedLegs (rows : list MovementLegForm) : list JsValue :=
  map prepare_leg (List.filter leg_filled rows).

(** [resetFields]: the initial value of a field. *)
Definition reset_value (field : OrderFieldDefinition) : JsValue :=
  match type field with
  | ft_checkbox => VBool (ToBoolean (default VUndefined (defaultValue field)))
  | ft_movement_legs => VArr []
  | ft_number => default (VStr "") (defaultValue field)
  | ft_select =>
      match defaultValue field with
      | Some d => d
      | None =>
          match options field with
          | Some ((first, _) :: _) => VStr first
          | _ => VStr ""
          end
      end
  | _ => default (VStr "") (defaultValue field)
  end.

Definition has_movement_legs (definition : OrderDefinition) : bool :=
  existsb (fun field => match type field with ft_movement_legs => true | _ => false end)
          (fields definition).

Definition resetFields (definition : OrderDefinition) (s : BuilderState) : BuilderState :=
  {| orderType := orderType s;
     fieldState :=
       foldl (fun base field => <[name field := reset_value field]> base) ∅
             (fields definition);
     legs := if has_movement_legs definition then [defaultLeg] else legs s;
     commanderId := commanderId s;
     executeDay := executeDay s;
     executePart := executePart s;
     priority := priority s;
     error := None;
     selectedArmyId := selectedArmyId s |}.

(** What [handleSubmit] ends with. *)
Inductive SubmitResult : Type :=
  | SetError (message : string)
      (** [setError(message); return]: no request *)
  | Mutate (payload : OrderCreateRequest.t)
      (** [createOrder.mutate(payload)]: the request is posted *)
  | ThrowsTypeError.
      (** a property of [undefined] is read, or [undefined] is iterated: no
          request *)

Section OrderBuilder.

(** [JSON.parse(String(value))] of the platform; [None] when it throws. *)
Variable JSON_parse_String : JsValue -> option JsValue.

(** The body of the loop over [orderDefinition.fields]: the error that ends
    the submission, or the parameters after this field. *)
Definition field_step (orderType : string) (fieldState : gmap string JsValue)
    (legs : list MovementLegForm) (field : OrderFieldDefinition)
    (parameters : gmap string JsValue) : string + gmap string JsValue :=
  let value := get_prop fieldState (name field) in
  match type field with
  | ft_movement_legs =>
      let prepared := preparedLegs legs in
      if String.eqb orderType "move" && (length prepared =? 0)%nat
      then inl "Provide at least one movement leg."
      else inr (<[name field := VArr prepared]> parameters)
  | ft_checkbox =>
      inr (<[name field := VBool (ToBoolean value)]> parameters)
  | ft_list =>
      let raw := match value with VStr s => s | _ => "" end in
      let entries :=
        List.filter (fun entry => negb (is_empty entry)) (map trim (split_comma raw)) in
      inr (<[name field :=
               match listValueType field with
               | Some lv_number => VArr (map (fun entry => VNum (StringToNumber entry)) entries)
               | _ => VArr (map VStr entries)
               end]> parameters)
  | ft_json =>
      if negb (ToBoolean value) || is_empty_string value
      then inr (<[name field := VObj []]> parameters)
      else match JSON_parse_String value with
           | Some parsed => inr (<[name field := parsed]> parameters)
           | None => inl ("Invalid JSON for " ++ label field)
           end
  | ft_number =>
      match value with
      | VStr EmptyString | VNull | VUndefined => inr parameters
      | _ =>
          let numeric := ToNumber value in
          if negb (Number_isFinite numeric)
          then inl (label field ++ " must be a number.")
          else inr (<[name field := VNum numeric]> parameters)
      end
  | ft_select | ft_text | ft_textarea =>
      if match value with VStr s => is_empty (trim s) | _ => false end
         && default false (required field)
      then inl (label field ++ " is required.")
      else
        match value with
        | VUndefined | VStr EmptyString => inr parameters
        | _ => inr (<[name field := value]> parameters)
        end
  end.

(** The loop itself, which stops at the first error. *)
Fixpoint collect_parameters (orderType : string) (fieldState : gmap string JsValue)
    (legs : list MovementLegForm) (remaining : list OrderFieldDefinition)
    (parameters : gmap string JsValue) : string + gmap string JsValue :=
  match remaining with
  | [] => inr parameters
  | field :: rest =>
      match field_step orderType fieldState legs field parameters with
      | inl message => inl message
      | inr parameters' => collect_parameters orderType fieldState legs rest parameters'
      end
  end.

Definition handleSubmit (s : BuilderState) : SubmitResult :=
  match lookup_definition ORDER_DEFINITIONS (orderType s) with
  | None =>
      if existsb (String.eqb (orderType s)) OBJECT_PROTOTYPE_KEYS
      then
        (* [requiresArmy] reads as [undefined]; the loop iterates [undefined] *)
        if id_falsy (commanderId s)
        then SetError "Select a commander to authorise the order."
        else ThrowsTypeError
      else ThrowsTypeError
  | Some orderDefinition =>
      if requiresArmy orderDefinition && id_falsy (selectedArmyId s)
      then SetError "Select an army to issue this order."
      else if id_falsy (commanderId s)
      then SetError "Select a commander to authorise the order."
      else
        match collect_parameters (orderType s) (fieldState s) (legs s)
                (fields orderDefinition) ∅ with
        | inl message => SetError message
        | inr parameters =>
            let executeDayValue :=
              if negb (is_empty (trim (executeDay s)))
              then Some (StringToNumber (executeDay s))
              else None in
            if match executeDayValue with Some n => Number_isNaN n | None => false end
            then SetError "Execution day must be numeric."
            else
              Mutate
                {| OrderCreateRequest.army_id :=
                     if requiresArmy orderDefinition then selectedArmyId s
                     else match selectedArmyId s with Some a => Some a | None => None end;
                   OrderCreateRequest.commander_id := commanderId s;
                   OrderCreateRequest.order_type := orderType s;
                   OrderCreateRequest.parameters := parameters;
                   OrderCreateRequest.execute_day := executeDayValue;
                   OrderCreateRequest.execute_part :=
                     if negb (is_empty (executePart s)) then Some (executePart s) else None;
                   OrderCreateRequest.priority := priority s |}
        end
  end.

(** ** What one field contributes

    The loop body either ends the submission with a message, leaves the
    parameters as they are, or assigns one value under the field's name; which
    of the three does not depend on the parameters collected so far. *)
Definition field_value (orderType : string) (fieldState : gmap string JsValue)
    (legs : list MovementLegForm) (field : OrderFieldDefinition)
  : string + option JsValue :=
  match field_step orderType fieldState legs field ∅ with
  | inl message => inl message
  | inr parameters => inr (parameters !! name field)
  end.

(** ** The component as a transition system

    One transition per event handler of the rendered form, each followed by
    the effects that React runs before the next event.  The prop
    [selectedArmyId] and the state [commanderId], which an effect also
    synchronises with the selected army, may change to any value of their
    type. *)

(** [initial] is the state of the first render, [mounted] the state after the
    mount effect [resetFields(orderDefinition)]. *)
Definition initial : BuilderState :=
  {| orderType := default "" (head ORDER_TYPES);
     fieldState := ∅;
     legs := [defaultLeg];
     commanderId := None;
     executeDay := "";
     executePart := "";
     priority := js_zero;
     error := None;
     selectedArmyId := None |}.

Definition current_definition (s : BuilderState) : option OrderDefinition :=
  lookup_definition ORDER_DEFINITIONS (orderType s).

Definition run_reset (s : BuilderState) : BuilderState :=
  match current_definition s with
  | Some definition => resetFields definition s
  | None => s
  end.

Definition mounted : BuilderState := run_reset initial.

Definition with_orderType (value : string) (s : BuilderState) : BuilderState :=
  {| orderType := value; fieldState := fieldState s; legs := legs s;
     commanderId := commanderId s; executeDay := executeDay s;
     executePart := executePart s; priority := priority s; error := error s;
     selectedArmyId := selectedArmyId s |}.

(** [setOrderType(value)]; the effect on [orderDefinition] runs when the type,
    and with it the memoised definition, changes. *)
Definition setOrderType (value : string) (s : BuilderState) : BuilderState :=
  if String.eqb value (orderType s) then s
  else run_reset (with_orderType value s).

(** [updateField(name, value)] *)
Definition updateField (key : string) (value : JsValue) (s : BuilderState) : BuilderState :=
  {| orderType := orderType s; fieldState := <[key := value]> (fieldState s);
     legs := legs s; commanderId := commanderId s; executeDay := executeDay s;
     executePart := executePart s; priority := priority s; error := error s;
     selectedArmyId := selectedArmyId s |}.

Definition with_legs (rows : list MovementLegForm) (s : BuilderState) : BuilderState :=
  {| orderType := orderType s; fieldState := fieldState s; legs := rows;
     commanderId := commanderId s; executeDay := executeDay s;
     executePart := executePart s; priority := priority s; error := error s;
     selectedArmyId := selectedArmyId s |}.

(** The one-property patches that the controls of a leg row pass to
    [updateLeg]. *)
Inductive LegPatch : Type :=
  | patch_to_hex_id (value : string)
  | patch_distance_miles (value : string)
  | patch_on_road (checked : bool)
  | patch_has_river_ford (checked : bool)
  | patch_is_night (checked : bool)
  | patch_has_fork (checked : bool)
  | patch_alternate_hex_id (value : string).

(** [{ ...leg, ...patch }] *)
Definition apply_patch (patch : LegPatch) (leg : MovementLegForm) : MovementLegForm :=
  match patch with
  | patch_to_hex_id v =>
      {| to_hex_id := v; distance_miles := distance_miles leg; on_road := on_road leg;
         has_river_ford := has_river_ford leg; is_night := is_night leg;
         has_fork := has_fork leg; alternate_hex_id := alternate_hex_id leg |}
  | patch_distance_miles v =>
      {| to_hex_id := to_hex_id leg; distance_miles := v; on_road := on_road leg;
         has_river_ford := has_river_ford leg; is_night := is_night leg;
         has_fork := has_fork leg; alternate_hex_id := alternate_hex_id leg |}
  | patch_on_road b =>
      {| to_hex_id := to_hex_id leg; distance_miles := distance_miles leg; on_road := b;
         has_river_ford := has_river_ford leg; is_night := is_night leg;
         has_fork := has_fork leg; alternate_hex_id := alternate_hex_id leg |}
  | patch_has_river_ford b =>
      {| to_hex_id := to_hex_id leg; distance_miles := distance_miles leg;
         on_road := on_road leg; has_river_ford := b; is_night := is_night leg;
         has_fork := has_fork leg; alternate_hex_id := alternate_hex_id leg |}
  | patch_is_night b =>
      {| to_hex_id := to_hex_id leg; distance_miles := distance_miles leg;
         on_road := on_road leg; has_river_ford := has_river_ford leg; is_night := b;
         has_fork := has_fork leg; alternate_hex_id := alternate_hex_id leg |}
  | patch_has_fork b =>
      {| to_hex_id := to_hex_id leg; distance_miles := distance_miles leg;
         on_road := on_road leg; has_river_ford := has_river_ford leg;
         is_night := is_night leg; has_fork := b;
         alternate_hex_id := alternate_hex_id leg |}
  | patch_alternate_hex_id v =>
      {| to_hex_id := to_hex_id leg; distance_miles := distance_miles leg;
         on_road := on_road leg; has_river_ford := has_river_ford leg;
         is_night := is_night leg; has_fork := has_fork leg; alternate_hex_id := v |}
  end.

(** [addLeg], [removeLeg(index)] and [updateLeg(index, patch)] on the rows. *)
Definition addLeg (rows : list MovementLegForm) : list MovementLegForm :=
  rows ++ [defaultLeg].

Definition removeLeg (index : nat) (rows : list MovementLegForm) : list MovementLegForm :=
  delete index rows.

Definition updateLeg (index : nat) (patch : LegPatch) (rows : list MovementLegForm)
  : list MovementLegForm :=
  alter (apply_patch patch) index rows.

(** What the control rendered for a field can pass to [updateField]: a
    checkbox its [checked] flag, a select the value of one of its options, the
    other inputs their text; the leg table does not use [updateField]. *)
Definition control_reports (field : OrderFieldDefinition) (value : JsValue) : bool :=
  match type field, value with
  | ft_movement_legs, _ => false
  | ft_checkbox, VBool _ => true
  | ft_checkbox, _ => false
  | ft_select, VStr chosen =>
      existsb (String.eqb chosen) (map fst (default [] (options field)))
  | ft_select, _ => false
  | _, VStr _ => true
  | _, _ => false
  end.

(** [onSuccess] of the mutation. *)
Definition onSuccess (s : BuilderState) : BuilderState :=
  run_reset
    {| orderType := orderType s; fieldState := fieldState s; legs := legs s;
       commanderId := commanderId s; executeDay := ""; executePart := "";
       priority := js_zero; error := error s; selectedArmyId := selectedArmyId s |}.

Definition with_error (message : option string) (s : BuilderState) : BuilderState :=
  {| orderType := orderType s; fieldState := fieldState s; legs := legs s;
     commanderId := commanderId s; executeDay := executeDay s;
     executePart := executePart s; priority := priority s; error := message;
     selectedArmyId := selectedArmyId s |}.

(** The [error] state after [handleSubmit]: cleared first, then set when the
    submission is refused. *)
Definition submit_error (r : SubmitResult) : option string :=
  match r with
  | SetError message => Some message
  | Mutate _ | ThrowsTypeError => None
  end.

(** One user or network event. *)
Inductive step : BuilderState -> BuilderState -> Prop :=
  | step_order_type s value :
      value ∈ ORDER_TYPES ->
      step s (setOrderType value s)
  | step_field s definition field value :
      current_definition s = Some definition ->
      field ∈ fields definition ->
      control_reports field value = true ->
      step s (updateField (name field) value s)
  | step_add_leg s definition :
      current_definition s = Some definition ->
      has_movement_legs definition = true ->
      step s (with_legs (addLeg (legs s)) s)
  | step_remove_leg s definition index :
      current_definition s = Some definition ->
      has_movement_legs definition = true ->
      length (legs s) ≠ 1%nat ->
      step s (with_legs (removeLeg index (legs s)) s)
  | step_update_leg s definition index patch :
      current_definition s = Some definition ->
      has_movement_legs definition = true ->
      step s (with_legs (updateLeg index patch (legs s)) s)
  | step_select_army s next :
      step s {| orderType := orderType s; fieldState := fieldState s; legs := legs s;
                commanderId := commanderId s; executeDay := executeDay s;
                executePart := executePart s; priority := priority s;
                error := error s; selectedArmyId := next |}
  | step_commander s next :
      step s {| orderType := orderType s; fieldState := fieldState s; legs := legs s;
                commanderId := next; executeDay := executeDay s;
                executePart := executePart s; priority := priority s;
                error := error s; selectedArmyId := selectedArmyId s |}
  | step_execute_day s value :
      step s {| orderType := orderType s; fieldState := fieldState s; legs := legs s;
                commanderId := commanderId s; executeDay := value;
                executePart := executePart s; priority := priority s;
                error := error s; selectedArmyId := selectedArmyId s |}
  | step_execute_part s value :
      value ∈ map fst DAY_PART_OPTIONS ->
      step s {| orderType := orderType s; fieldState := fieldState s; legs := legs s;
                commanderId := commanderId s; executeDay := executeDay s;
                executePart := value; priority := priority s;
                error := error s; selectedArmyId := selectedArmyId s |}
  | step_priority s value :
      step s {| orderType := orderType s; fieldState := fieldState s; legs := legs s;
                commanderId := commanderId s; executeDay := executeDay s;
                executePart := executePart s; priority := StringToNumber value;
                error := error s; selectedArmyId := selectedArmyId s |}
  | step_submit s :
      step s (with_error (submit_error (handleSubmit s)) s)
  | step_created s :
      step s (onSuccess s)
  | step_failed s message :
      step s (with_error (Some message) s).

(** The states the form can be in when an event arrives. *)
Inductive reachable : BuilderState -> Prop :=
  | reachable_mounted : reachable mounted
  | reachable_step s s' : reachable s -> step s s' -> reachable s'.

(** The requests the form can post. *)
Definition posts (payload : OrderCreateRequest.t) : Prop :=
  exists s, reachable s /\ handleSubmit s = Mutate payload.

End OrderBuilder.

(* ===================================================================== *)
(** * 10. The rules engine behind the client *)
(* ===================================================================== *)

(** The engine ([cataphract.domain]) is the server side of the requests
    above.  Its contract is modelled here as the specification words it. *)

(** Modelled from the spec: the error taxonomy of the engine (section 7). *)
Inductive EngineError : Type :=
  | ValidationError
  | AuthorizationError
  | NotFoundError
  | InvalidRouteError
  | InvalidStateError
  | ConflictError.

(** Modelled from the spec: the closed set of order types of the Order entity
    (section 3). *)
Inductive OrderType : Type :=
  | ot_move | ot_rest | ot_forage | ot_torch | ot_supply_transfer | ot_besiege
  | ot_assault | ot_embark | ot_disembark | ot_naval_move | ot_send_message
  | ot_launch_operation | ot_raise_army | ot_harry.

(** Modelled from the spec: the order_type check of [submit_order], "unrecognized
    order_type values fail with ValidationError" (section 6). *)
Definition check_order_type (order_type : string) : EngineError + OrderType :=
  if String.eqb order_type "move" then inr ot_move
  else if String.eqb order_type "rest" then inr ot_rest
  else if String.eqb order_type "forage" then inr ot_forage
  else if String.eqb order_type "torch" then inr ot_torch
  else if String.eqb order_type "supply_transfer" then inr ot_supply_transfer
  else if String.eqb order_type "besiege" then inr ot_besiege
  else if String.eqb order_type "assault" then inr ot_assault
  else if String.eqb order_type "embark" then inr ot_embark
  else if String.eqb order_type "disembark" then inr ot_disembark
  else if String.eqb order_type "naval_move" then inr ot_naval_move
  else if String.eqb order_type "send_message" then inr ot_send_message
  else if String.eqb order_type "launch_operation" then inr ot_launch_operation
  else if String.eqb order_type "raise_army" then inr ot_raise_army
  else if String.eqb order_type "harry" then inr ot_harry
  else inl ValidationError.

(** Modelled from the spec: the status of an Order, "pending -> executing ->
    {completed|failed|cancelled}, terminal once non-pending-non-executing"
    (section 3). *)
Inductive OrderStatus : Type :=
  | st_pending | st_executing | st_completed | st_failed | st_cancelled.

(** Modelled from the spec: the names of the statuses, as section 3 spells
    them and as responses carry them. *)
Definition status_name (st : OrderStatus) : string :=
  match st with
  | st_pending => "pending"
  | st_executing => "executing"
  | st_completed => "completed"
  | st_failed => "failed"
  | st_cancelled => "cancelled"
  end.

(** Modelled from the spec: "terminal once non-pending-non-executing"
    (section 3). *)
Definition is_terminal (st : OrderStatus) : bool :=
  match st with
  | st_pending | st_executing => false
  | st_completed | st_failed | st_cancelled => true
  end.

(** Modelled from the spec: the Order entity of section 3, with the fields the
    scheduler reads. *)
Record Order : Type := {
  order_id : N;
  order_kind : OrderType;
  order_status : OrderStatus;
  order_priority : Z
}.

(** Modelled from the spec: [cancel(orderId)] "transitions pending/executing ->
    cancelled; fails with InvalidStateError if already terminal" (section 4.1),
    on the order the id names. *)
Definition cancel (o : Order) : EngineError + Order :=
  if is_terminal (order_status o) then inl InvalidStateError
  else inr {| order_id := order_id o; order_kind := order_kind o;
              order_status := st_cancelled; order_priority := order_priority o |}.

(* ===================================================================== *)
(** * 11. Well-formedness of the definition table *)
(* ===================================================================== *)

(** [find] on the fields of a definition, by name. *)
Definition find_field (definition : OrderDefinition) (key : string)
  : option OrderFieldDefinition :=
  find (fun field => String.eqb (name field) key) (fields definition).

Fixpoint distinct (keys : list string) : bool :=
  match keys with
  | [] => true
  | key :: others => negb (existsb (String.eqb key) others) && distinct others
  end.

(** The values a select can report. *)
Definition option_values (field : OrderFieldDefinition) : list string :=
  map fst (default [] (options field)).

(** A select starts on one of its options, none of which is blank. *)
Definition select_starts_on_option (field : OrderFieldDefinition) : bool :=
  match type field with
  | ft_select =>
      match reset_value field with
      | VStr chosen => existsb (String.eqb chosen) (option_values field)
      | _ => false
      end
      && forallb (fun o => negb (is_empty o)) (option_values field)
  | _ => true
  end.

Definition TERRITORY_TYPES : list string := ["friendly"; "neutral"; "hostile"].

(** A field named [territory_type] is a select over the territory types. *)
Definition territory_is_select (field : OrderFieldDefinition) : bool :=
  if String.eqb (name field) "territory_type" then
    match type field with
    | ft_select =>
        forallb (fun o => existsb (String.eqb o) TERRITORY_TYPES) (option_values field)
    | _ => false
    end
  else true.

Definition well_formed (definition : OrderDefinition) : bool :=
  distinct (map name (fields definition))
  && forallb select_starts_on_option (fields definition)
  && forallb territory_is_select (fields definition).

(** Every select of the current definition stands on one of its options. *)
Definition selects_on_options (s : BuilderState) : Prop :=
  exists definition,
    current_definition s = Some definition /\
    forall field,
      field ∈ fields definition ->
      type field = ft_select ->
      exists chosen,
        fieldState s !! name field = Some (VStr chosen) /\ chosen ∈ option_values field.

(** The shape of a prepared leg: the seven properties in order, numbers for
    the destination and the distance, booleans for the four flags, and a
    number or [undefined] for the alternate hex. *)
Definition is_number (v : JsValue) : bool :=
  match v with VNum _ => true | _ => false end.

Definition is_boolean (v : JsValue) : bool :=
  match v with VBool _ => true | _ => false end.

Definition is_undefined (v : JsValue) : bool :=
  match v with VUndefined => true | _ => false end.

Definition leg_record (v : JsValue) : bool :=
  match v with
  | VObj [(k1, v1); (k2, v2); (k3, v3); (k4, v4); (k5, v5); (k6, v6); (k7, v7)] =>
      String.eqb k1 "to_hex_id" && is_number v1
      && String.eqb k2 "distance_miles" && is_number v2
      && String.eqb k3 "on_road" && is_boolean v3
      && String.eqb k4 "has_river_ford" && is_boolean v4
      && String.eqb k5 "is_night" && is_boolean v5
      && String.eqb k6 "has_fork" && is_boolean v6
      && String.eqb k7 "alternate_hex_id" && (is_number v7 || is_undefined v7)
  | _ => false
  end.

(** [v === "" || v === null || v === undefined] *)
Definition is_blank (v : JsValue) : bool :=
  match v with
  | VStr EmptyString | VNull | VUndefined => true
  | _ => false
  end.

(* ===================================================================== *)
(** * 12. Instances for concrete runs *)
(* ===================================================================== *)

(** A platform parser that knows the JSON literals and the empty object, and
    throws on every other text. *)
Definition parse_literals (value : JsValue) : option JsValue :=
  match value with
  | VStr "{}" => Some (VObj [])
  | VStr "null" => Some VNull
  | VStr "true" => Some (VBool true)
  | VStr "false" => Some (VBool false)
  | _ => None
  end.

(** A march of one filled leg, with a fork, and one row left blank. *)
Definition sample_move : BuilderState :=
  {| orderType := "move";
     fieldState := {[ "movement_type" := VStr "standard";
                      "weather_modifier" := VNum js_zero;
                      "legs" := VArr [] ]};
     legs := [ {| to_hex_id := "12"; distance_miles := "6.5"; on_road := true;
                  has_river_ford := false; is_night := false; has_fork := true;
                  alternate_hex_id := "14" |};
               defaultLeg ];
     commanderId := Some (js_of_Z 3);
     executeDay := "";
     executePart := "";
     priority := js_zero;
     error := None;
     selectedArmyId := Some (js_of_Z 5) |}.

(** An assault with a fixed roll for each side. *)
Definition sample_assault : BuilderState :=
  {| orderType := "assault";
     fieldState := {[ "stronghold_id" := VStr "4";
                      "pillage" := VBool false;
                      "attacker_modifier" := VNum js_zero;
                      "defender_modifier" := VNum js_zero;
                      "attacker_fixed_roll" := VStr "20";
                      "defender_fixed_roll" := VStr "1" ]};
     legs := [defaultLeg];
     commanderId := Some (js_of_Z 3);
     executeDay := "";
     executePart := "";
     priority := js_zero;
     error := None;
     selectedArmyId := Some (js_of_Z 5) |}.

(** A message through hostile territory, as the form reaches it: the order
    type is chosen, the three fields are filled and a commander is set. *)
Definition sample_message : BuilderState :=
  let chosen := setOrderType "send_message" mounted in
  let filled :=
    updateField "territory_type" (VStr "hostile")
      (updateField "content" (VStr "Hold the ford.")
         (updateField "recipient_id" (VStr "2") chosen)) in
  {| orderType := orderType filled; fieldState := fieldState filled;
     legs := legs filled; commanderId := Some (js_of_Z 3);
     executeDay := executeDay filled; executePart := executePart filled;
     priority := priority filled; error := error filled;
     selectedArmyId := selectedArmyId filled |}.

(** An executing order and its row in the ledger. *)
Definition sample_order : Order :=
  {| order_id := 7; order_kind := ot_move; order_status := st_executing;
     order_priority := 0 |}.

Definition sample_row : OrderSummary.t :=
  {| OrderSummary.id := js_of_Z 7; OrderSummary.army_id := None;
     OrderSummary.commander_id := js_of_Z 1;
     OrderSummary.order_type := "move";
     OrderSummary.status := "executing";
     OrderSummary.priority := js_zero;
     OrderSummary.execute_day := None;
     OrderSummary.execute_part := None;
     OrderSummary.parameters := ∅;
     OrderSummary.result := None |}.

(* ===================================================================== *)
(** * 13. The rest of the client *)
(* ===================================================================== *)

(** [x === y] on numbers: [NaN] equals nothing, the two zeros are equal. *)
Definition js_strict_eq (x y : JsNumber) : bool := SFeqb x y.

(** [a === b] for an army id that may be missing ([undefined]) and a
    selection that may be [null]: only two numbers can be equal. *)
Definition same_army_id (a b : option JsNumber) : bool :=
  match a, b with
  | Some x, Some y => js_strict_eq x y
  | _, _ => false
  end.

Module ArmySummary.
Record t : Type := {
    id : option JsNumber;
    commander_id : JsNumber;
    commander_name : option string;
    status : string;
    current_hex_id : option JsNumber;
    supplies_current : JsNumber;
    supplies_capacity : JsNumber;
    morale_current : JsNumber;
    movement_points_remaining : JsNumber;
    orders_queue : list JsNumber;
    faction_id : option JsNumber
}.
End ArmySummary.

Module CommanderBrief.
Record t : Type := {
    name : string;
    faction_id : option JsNumber;
    current_hex_id : option JsNumber
}.
End CommanderBrief.

(** An entry of the commander select: [{ id, label }]. *)
Module CommanderOption.
Record t : Type := {
    id : JsNumber;
    label : string
}.
End CommanderOption.

(** ** Army roster ([components/ArmyList.tsx]) *)

(** The click on an army's card: the argument of [onSelect]. *)
Definition armyCardClick (army : ArmySummary.t) (selectedArmyId : option JsNumber)
  : option JsNumber :=
  let isSelected := same_army_id (ArmySummary.id army) selectedArmyId in
  if isSelected then None else ArmySummary.id army.

(** ** Commander options and the selected army ([OrderBuilder.tsx]) *)

(** [arr.findIndex(p)]: the first index whose element satisfies [p], or -1. *)
Fixpoint findIndex {A : Type} (p : A -> bool) (arr : list A) : Z :=
  match arr with
  | [] => -1
  | x :: rest =>
      if p x then 0
      else let found := findIndex p rest in
           if found =? -1 then -1 else found + 1
  end.

(** [arr.filter((candidate, index) => keep candidate index)], the rows being
    numbered from [index]. *)
Fixpoint filter_indexed {A : Type} (keep : A -> Z -> bool) (index : Z) (arr : list A)
  : list A :=
  match arr with
  | [] => []
  | candidate :: rest =>
      if keep candidate index
      then candidate :: filter_indexed keep (index + 1) rest
      else filter_indexed keep (index + 1) rest
  end.

(** [armies.find((army) => army.id === selectedArmyId) ?? null] *)
Definition selectedArmy (armies : list ArmySummary.t) (selectedArmyId : option JsNumber)
  : option ArmySummary.t :=
  find (fun army => same_army_id (ArmySummary.id army) selectedArmyId) armies.

Definition with_commanderId (next : option JsNumber) (s : BuilderState) : BuilderState :=
  {| orderType := orderType s; fieldState := fieldState s; legs := legs s;
     commanderId := next; executeDay := executeDay s;
     executePart := executePart s; priority := priority s; error := error s;
     selectedArmyId := selectedArmyId s |}.

Section CommanderOptions.

(** The text of a number inside a template literal, [`${n}`]. *)
Variable Number_toString : JsNumber -> string.

(** [Object.entries(commanders).map(...)]; the record is given as its entries,
    in the order [Object.entries] lists them. *)
Definition commander_pairs (commanders : list (string * CommanderBrief.t))
  : list CommanderOption.t :=
  map (fun entry =>
         {| CommanderOption.id := StringToNumber (fst entry);
            CommanderOption.label :=
              if negb (is_empty (CommanderBrief.name (snd entry)))
              then CommanderBrief.name (snd entry)
              else "Commander " ++ fst entry |})
      commanders.

(** [armies.map(...).filter(...)]: one option for each army, those kept whose
    id is first met at their own index. *)
Definition armyCommanders (armies : list ArmySummary.t) : list CommanderOption.t :=
  let arr :=
    map (fun army =>
           {| CommanderOption.id := ArmySummary.commander_id army;
              CommanderOption.label :=
                match ArmySummary.commander_name army with
                | Some (String c r) => String c r
                | _ => "Commander " ++ Number_toString (ArmySummary.commander_id army)
                end |})
        armies in
  filter_indexed
    (fun candidate index =>
       findIndex (fun row => js_strict_eq (CommanderOption.id row)
                                          (CommanderOption.id candidate)) arr
       =? index)
    0 arr.

(** The callback of [merged.reduce]. *)
Definition push_unless_present (acc : list CommanderOption.t) (entry : CommanderOption.t)
  : list CommanderOption.t :=
  if existsb (fun existing => js_strict_eq (CommanderOption.id existing)
                                           (CommanderOption.id entry)) acc
  then acc
  else (acc ++ [entry])%list.

Definition commanderOptions (commanders : list (string * CommanderBrief.t))
    (armies : list ArmySummary.t) : list CommanderOption.t :=
  foldl push_unless_present []
        (commander_pairs commanders ++ armyCommanders armies)%list.

(** The effect on [selectedArmy, commanderOptions, commanderId]: the state
    after the [setCommanderId] it calls, if any. *)
Definition commanderEffect (armies : list ArmySummary.t)
    (options : list CommanderOption.t) (s : BuilderState) : BuilderState :=
  match selectedArmy armies (selectedArmyId s) with
  | Some army =>
      if id_falsy (commanderId s)
         || negb (same_army_id (commanderId s) (Some (ArmySummary.commander_id army)))
      then with_commanderId (Some (ArmySummary.commander_id army)) s
      else s
  | None =>
      match options with
      | first :: _ =>
          if id_falsy (commanderId s)
          then with_commanderId (Some (CommanderOption.id first)) s
          else s
      | [] => s
      end
  end.

End CommanderOptions.

(** ** The error paragraph and the mutation's error handler ([OrderBuilder.tsx]) *)

(** [onError]: the message of an [Error] becomes the form's error. *)
Definition onError (message : string) (s : BuilderState) : BuilderState :=
  with_error (Some message) s.

(** [{error && <p>{error}</p>}]: the text of the error paragraph, when it is
    rendered. *)
Definition error_paragraph (s : BuilderState) : option string :=
  match error s with
  | Some (String c r) => Some (String c r)
  | _ => None
  end.

(** ** Schedule form ([components/TickControls.tsx]) *)

Module TickScheduleUpdate.
Record t : Type := {
    enabled : bool;
    interval_seconds : option JsNumber;
    debug_multiplier : option JsNumber
}.
End TickScheduleUpdate.

(** [Number(form.get(name))]: a control that is not in the form data reads as
    [null], which converts to 0. *)
Definition form_number (entry : option string) : JsNumber :=
  match entry with
  | Some text => StringToNumber text
  | None => js_zero
  end.

(** [handleScheduleToggle]: from the form data entries to the argument of
    [updateSchedule.mutate]. *)
Definition handleScheduleToggle (enabled interval multiplier : option string)
  : TickScheduleUpdate.t :=
  let interval_value := form_number interval in
  let multiplier_value := form_number multiplier in
  {| TickScheduleUpdate.enabled :=
       match enabled with Some text => String.eqb text "on" | None => false end;
     TickScheduleUpdate.interval_seconds :=
       if Number_isFinite interval_value && js_ltb js_zero interval_value
       then Some interval_value else None;
     TickScheduleUpdate.debug_multiplier :=
       if Number_isFinite multiplier_value && js_ltb js_zero multiplier_value
       then Some multiplier_value else None |}.

(** ** The API client's [request] ([api/client.ts]) *)

Module Response.
Record t : Type := {
    ok : bool;
    status : JsNumber;
    text : string
}.
End Response.

(** How the promise of [request] settles. *)
Inductive RequestResult : Type :=
  | Rejects (message : string)
  | ResolvesUndefined
  | ResolvesJson (body : JsValue).

Section Request.

Variable Number_toString : JsNumber -> string.

(** [response.json()]: the parsed body, or the message of the error the
    platform rejects with. *)
Variable Response_json : string -> JsValue + string.

(** [request], from the response that [fetch] resolves with. *)
Definition request (response : Response.t) : RequestResult :=
  if negb (Response.ok response) then
    Rejects (if negb (is_empty (Response.text response))
             then Response.text response
             else "Request failed with status " ++ Number_toString (Response.status response))
  else if js_strict_eq (Response.status response) (js_of_Z 204) then ResolvesUndefined
  else match Response_json (Response.text response) with
       | inl body => ResolvesJson body
       | inr message => Rejects message
       end.

End Request.

(** ** Invariants of the form *)

(** The inputs that hold text start on text. *)
Definition holds_text (v : JsValue) : bool :=
  match v with VStr _ => true | _ => false end.

Definition is_text_input (t : OrderFieldType) : bool :=
  match t with
  | ft_text | ft_textarea | ft_list | ft_json => true
  | _ => false
  end.

Definition text_starts_on_text (field : OrderFieldDefinition) : bool :=
  if is_text_input (type field) then holds_text (reset_value field) else true.

Definition texts_hold_text (s : BuilderState) : Prop :=
  exists definition,
    current_definition s = Some definition /\
    forall field,
      field ∈ fields definition ->
      is_text_input (type field) = true ->
      exists text, fieldState s !! name field = Some (VStr text).

(** ** More instances *)

Definition sample_army (army commander : Z) : ArmySummary.t :=
  {| ArmySummary.id := Some (js_of_Z army);
     ArmySummary.commander_id := js_of_Z commander;
     ArmySummary.commander_name := None;
     ArmySummary.status := "idle";
     ArmySummary.current_hex_id := None;
     ArmySummary.supplies_current := js_zero;
     ArmySummary.supplies_capacity := js_zero;
     ArmySummary.morale_current := js_zero;
     ArmySummary.movement_points_remaining := js_zero;
     ArmySummary.orders_queue := [];
     ArmySummary.faction_id := None |}.

Definition sample_armies : list ArmySummary.t :=
  [sample_army 5 3; sample_army 6 3; sample_army 7 4].

Definition sample_commanders : list (string * CommanderBrief.t) :=
  [ ("3", {| CommanderBrief.name := "Aelia"; CommanderBrief.faction_id := None;
             CommanderBrief.current_hex_id := None |});
    ("9", {| CommanderBrief.name := ""; CommanderBrief.faction_id := None;
             CommanderBrief.current_hex_id := None |}) ].

(** A rest order ready to be posted. *)
Definition sample_rest : BuilderState :=
  {| orderType := "rest";
     fieldState := {[ "duration_days" := VStr "2" ]};
     legs := [defaultLeg];
     commanderId := Some (js_of_Z 3);
     executeDay := "4";
     executePart := "night";
     priority := js_of_Z 2;
     error := None;
     selectedArmyId := Some (js_of_Z 5) |}.

(** The assault of [sample_assault] with two spaces typed for the stronghold. *)
Definition sample_white_assault : BuilderState :=
  updateField "stronghold_id" (VStr "  ") sample_assault.

(** A failure without a body. *)
Definition sample_failure : Response.t :=
  {| Response.ok := false; Response.status := js_of_Z 500; Response.text := "" |}.

(** Small whole numbers in decimal, standing for the platform's conversion. *)
Definition sample_toString (n : JsNumber) : string :=
  if js_strict_eq n (js_of_Z 3) then "3"
  else if js_strict_eq n (js_of_Z 4) then "4"
  else if js_strict_eq n (js_of_Z 500) then "500"
  else "?".

(* ===================================================================== *)
(** * 14. Numbers: comparison facts *)
(* ===================================================================== *)


(* ===================================================================== *)
(** * 15. Tick controls *)
(* ===================================================================== *)











(* ===================================================================== *)
(** * 16. Cancelling an order *)
(* ===================================================================== *)

(** The ledger shows the Cancel button for a row exactly when the row's status
    is pending or executing, whatever other text the status may be. *)
Lemma cancel_button_spec (isCancelling : bool) (row : OrderSummary.t) :
  is_Some (cancel_button isCancelling row) <->
  OrderSummary.status row = "pending" \/ OrderSummary.status row = "executing".
Proof.
  unfold cancel_button.
  destruct (String.eqb_spec (OrderSummary.status row) "pending") as [Hp | Hp];
    destruct (String.eqb_spec (OrderSummary.status row) "executing") as [He | He];
    simpl; split; intros H; eauto; try (by destruct H as [? [=]]);
    destruct H; contradiction.
Qed.

(** The button that is shown passes on the row's id and is disabled exactly
    while a cancellation is in flight. *)
Lemma cancel_button_shown (isCancelling : bool) (row : OrderSummary.t) button :
  cancel_button isCancelling row = Some button ->
  onClick button = OrderSummary.id row /\ disabled button = isCancelling.
Proof.
  unfold cancel_button. destruct (_ || _); [| discriminate].
  intros [= <-]. split; reflexivity.
Qed.

(** A click asks for a cancellation exactly on a row whose status is pending
    or executing while no cancellation is in flight, and then for that
    row. *)
Lemma cancel_click_spec (isCancelling : bool) (row : OrderSummary.t) (id : JsNumber) :
  cancel_click isCancelling row = Some id <->
  id = OrderSummary.id row /\ isCancelling = false /\
  (OrderSummary.status row = "pending" \/ OrderSummary.status row = "executing").
Proof.
  pose proof (cancel_button_spec isCancelling row) as Hshown.
  unfold cancel_click.
  destruct (cancel_button isCancelling row) as [button |] eqn:Hbutton.
  - apply cancel_button_shown in Hbutton as [Hid Hdisabled].
    rewrite Hdisabled, <- Hid.
    destruct isCancelling; split.
    + discriminate.
    + intros (_ & [=] & _).
    + intros [= <-]. repeat split. apply Hshown. eauto.
    + intros (-> & _ & _). reflexivity.
  - split; [discriminate |].
    intros (_ & _ & Hstatus). apply Hshown in Hstatus as [? [=]].
Qed.

Lemma cancel_ok_iff (o : Order) :
  order_status o = st_pending \/ order_status o = st_executing <->
  exists o', cancel o = inr o' /\ order_status o' = st_cancelled /\ order_id o' = order_id o.
Proof.
  unfold cancel. destruct (order_status o); simpl; split; intros H; eauto;
    try (destruct H as [? | ?]; discriminate);
    destruct H as (? & [=] & _).
Qed.

Lemma cancel_fails_iff (o : Order) :
  order_status o = st_completed \/ order_status o = st_failed \/
  order_status o = st_cancelled <->
  cancel o = inl InvalidStateError.
Proof.
  unfold cancel. destruct (order_status o); simpl; split; intros H; eauto;
    try discriminate; destruct H as [? | [? | ?]]; discriminate.
Qed.

(** The status names tell the pending and executing orders from the rest. *)
Lemma status_name_open (st : OrderStatus) :
  status_name st = "pending" \/ status_name st = "executing" <->
  st = st_pending \/ st = st_executing.
Proof.
  destruct st; simpl; split; intros [H | H]; auto; discriminate.
Qed.

(** C3, as stated, fails.  While a cancellation is in flight the ledger shows
    the Cancel button of an executing order disabled, and a click on it asks
    for nothing: the cancellation is not available for that order. *)
Lemma cancel_unavailable_while_cancelling :
  ~ (forall isCancelling row,
        cancel_click isCancelling row = Some (OrderSummary.id row) <->
        OrderSummary.status row = "pending" \/ OrderSummary.status row = "executing").
Proof.
  intros H.
  assert (Hclick : cancel_click true sample_row = Some (OrderSummary.id sample_row)).
  { apply H. right. reflexivity. }
  discriminate.
Qed.

(** C3, amended.  Cancelling an order whose status is completed, failed or
    cancelled fails with InvalidStateError; cancelling a pending or executing
    order succeeds and leaves it cancelled.  The ledger shows the Cancel
    button for a row exactly when the row's status is pending or executing;
    the button passes on the row's id and is disabled while a cancellation
    is in flight.  So a click asks for a cancellation exactly on a pending or
    executing row while none is in flight, and never for a row in another
    status.  For the row of an order: with no cancellation in flight, a click
    asks for the cancellation exactly when the cancellation succeeds; and
    the button is absent exactly when it fails with InvalidStateError. *)
Theorem cancel_offered_for_pending_or_executing
    (isCancelling : bool) (o : Order) (row : OrderSummary.t) :
  (order_status o = st_completed \/ order_status o = st_failed \/
   order_status o = st_cancelled <-> cancel o = inl InvalidStateError) /\
  (order_status o = st_pending \/ order_status o = st_executing <->
   exists o', cancel o = inr o' /\ order_status o' = st_cancelled /\
              order_id o' = order_id o) /\
  (is_Some (cancel_button isCancelling row) <->
   OrderSummary.status row = "pending" \/ OrderSummary.status row = "executing") /\
  (forall button,
      cancel_button isCancelling row = Some button ->
      onClick button = OrderSummary.id row /\ disabled button = isCancelling) /\
  (forall id,
      cancel_click isCancelling row = Some id <->
      id = OrderSummary.id row /\ isCancelling = false /\
      (OrderSummary.status row = "pending" \/ OrderSummary.status row = "executing")) /\
  (OrderSummary.status row = status_name (order_status o) ->
   (cancel_click isCancelling row = Some (OrderSummary.id row) <->
    isCancelling = false /\
    exists o', cancel o = inr o' /\ order_status o' = st_cancelled /\
               order_id o' = order_id o) /\
   (cancel_button isCancelling row = None <-> cancel o = inl InvalidStateError)).
Proof.
  split; [apply cancel_fails_iff |]. split; [apply cancel_ok_iff |].
  split; [apply cancel_button_spec |].
  split; [apply cancel_button_shown |].
  split; [apply cancel_click_spec |].
  intros Hrow. split.
  - rewrite cancel_click_spec, <- cancel_ok_iff, Hrow, status_name_open. tauto.
  - rewrite <- cancel_fails_iff.
    pose proof (cancel_button_spec isCancelling row) as Hshown.
    rewrite Hrow, status_name_open in Hshown.
    destruct (cancel_button isCancelling row) as [button |]; split; intros H.
    + discriminate.
    + exfalso. assert (Hs : is_Some (Some button)) by eauto.
      apply Hshown in Hs. destruct H as [H | [H | H]], Hs as [Hs | Hs]; congruence.
    + destruct (order_status o); auto; exfalso;
        assert (Hs : is_Some (@None CancelButton)) by (apply Hshown; auto);
        by destruct Hs.
    + reflexivity.
Qed.

Lemma cancel_offered_for_pending_or_executing_witness :
  cancel_click false sample_row = Some (OrderSummary.id sample_row) /\
  exists o', cancel sample_order = inr o' /\ order_status o' = st_cancelled /\
             order_id o' = order_id sample_order.
Proof.
  destruct (cancel_offered_for_pending_or_executing false sample_order sample_row)
    as (_ & Hok & _ & _ & _ & Hrow).
  assert (Hcancelled : exists o', cancel sample_order = inr o' /\
            order_status o' = st_cancelled /\ order_id o' = order_id sample_order).
  { apply Hok. right. reflexivity. }
  split; [| exact Hcancelled].
  apply (proj1 (Hrow eq_refl)). split; [reflexivity | exact Hcancelled].
Defined.

(* ===================================================================== *)
(** * 17. The definition table *)
(* ===================================================================== *)

(** Membership in a list that is written out. *)
Ltac in_literal :=
  repeat first [apply list_elem_of_here | apply list_elem_of_further].

Lemma lookup_definition_elem (table : list (string * OrderDefinition)) key definition :
  lookup_definition table key = Some definition -> (key, definition) ∈ table.
Proof.
  induction table as [| [k d] table IH]; simpl; [discriminate |].
  destruct (String.eqb_spec k key) as [-> | _].
  - intros [= ->]. apply list_elem_of_here.
  - intros H. apply list_elem_of_further, IH, H.
Qed.

Lemma lookup_definition_is_Some (table : list (string * OrderDefinition)) key :
  key ∈ map fst table <-> is_Some (lookup_definition table key).
Proof.
  induction table as [| [k d] table IH]; simpl.
  - split; [intros H; inversion H | intros [? [=]]].
  - destruct (String.eqb_spec k key) as [-> | Hne].
    + split; [eauto | intros _; apply list_elem_of_here].
    + rewrite <- IH. split; intros H.
      * inversion H; subst; [contradiction | assumption].
      * by apply list_elem_of_further.
Qed.

Lemma existsb_eqb_elem (key : string) (keys : list string) :
  existsb (String.eqb key) keys = true <-> key ∈ keys.
Proof.
  rewrite existsb_exists, list_elem_of_In. split.
  - intros (x & Hin & Heq). apply String.eqb_eq in Heq. by subst.
  - intros Hin. exists key. split; [assumption | apply String.eqb_refl].
Qed.

Lemma distinct_NoDup (keys : list string) : distinct keys = true -> NoDup keys.
Proof.
  induction keys as [| key others IH]; simpl; [constructor |].
  intros [Hfresh Hrest]%andb_prop. constructor; [| auto].
  intros Hin%existsb_eqb_elem. rewrite Hin in Hfresh. discriminate.
Qed.

Lemma table_well_formed : forallb well_formed (map snd ORDER_DEFINITIONS) = true.
Proof. vm_compute. reflexivity. Qed.

Lemma definition_well_formed key definition :
  lookup_definition ORDER_DEFINITIONS key = Some definition ->
  well_formed definition = true.
Proof.
  intros H%lookup_definition_elem.
  pose proof table_well_formed as Hall. rewrite forallb_forall in Hall.
  apply Hall, in_map_iff. exists (key, definition).
  split; [reflexivity | by apply list_elem_of_In].
Qed.

Lemma definition_names_NoDup key definition :
  lookup_definition ORDER_DEFINITIONS key = Some definition ->
  NoDup (map name (fields definition)).
Proof.
  intros H%definition_well_formed. unfold well_formed in H.
  apply andb_prop in H as [H _]. apply andb_prop in H as [H _].
  by apply distinct_NoDup.
Qed.

(** Two fields of one definition with the same name are the same field. *)
Lemma same_name_same_field (l : list OrderFieldDefinition) f g :
  NoDup (map name l) -> f ∈ l -> g ∈ l -> name f = name g -> f = g.
Proof.
  induction l as [| h l IH]; simpl; intros Hnd Hf Hg Hname; [inversion Hf |].
  inversion Hnd as [| ? ? Hfresh Hnd']; subst.
  inversion Hf; inversion Hg; subst; auto.
  - exfalso. apply Hfresh. rewrite Hname. by apply list_elem_of_fmap_2.
  - exfalso. apply Hfresh. rewrite <- Hname. by apply list_elem_of_fmap_2.
Qed.

(* ===================================================================== *)
(** * 18. The parameter loop *)
(* ===================================================================== *)

Section Loop.

Variable JSON_parse_String : JsValue -> option JsValue.
Variable orderType : string.
Variable fieldState : gmap string JsValue.
Variable legs : list MovementLegForm.

#[local] Abbreviation step_of := (field_step JSON_parse_String orderType fieldState legs).
#[local] Abbreviation value_of := (field_value JSON_parse_String orderType fieldState legs).
#[local] Abbreviation collect :=
  (collect_parameters JSON_parse_String orderType fieldState legs).

Ltac crush_step :=
  repeat (rewrite ?lookup_insert_eq, ?lookup_empty; cbn [from_option id negb andb orb];
          match goal with
          | |- context [if ?b then _ else _] => destruct b
          | |- context [match ?x with _ => _ end] =>
              lazymatch x with
              | _ !! _ => fail
              | _ => destruct x
              end
          end);
  rewrite ?lookup_insert_eq, ?lookup_empty; try reflexivity.

(** The loop body in terms of the field's contribution. *)
Lemma field_step_value (field : OrderFieldDefinition) (acc : gmap string JsValue) :
  step_of field acc =
  match value_of field with
  | inl message => inl message
  | inr None => inr acc
  | inr (Some v) => inr (<[name field := v]> acc)
  end.
Proof.
  unfold field_value, field_step.
  destruct (type field); crush_step.
Qed.

(** A name that no field has keeps its entry. *)
Lemma collect_other_key (l : list OrderFieldDefinition) acc ps key :
  collect l acc = inr ps -> key ∉ map name l -> ps !! key = acc !! key.
Proof.
  revert acc. induction l as [| f l IH]; simpl; intros acc.
  - by intros [= ->].
  - rewrite field_step_value. intros H Hkey.
    apply not_elem_of_cons in Hkey as [Hne Hkey].
    destruct (value_of f) as [m | [v |]]; [discriminate | |].
    + rewrite (IH _ H Hkey). by apply lookup_insert_ne.
    + by apply IH.
Qed.

(** When the loop completes no field has refused, and the entry of a field is
    its contribution. *)
Lemma collect_field (l : list OrderFieldDefinition) acc ps f :
  NoDup (map name l) -> collect l acc = inr ps -> f ∈ l ->
  exists contribution,
    value_of f = inr contribution /\
    ps !! name f = match contribution with
                   | Some v => Some v
                   | None => acc !! name f
                   end.
Proof.
  revert acc. induction l as [| g l IH]; simpl; intros acc Hnd Hrun Hf.
  - inversion Hf.
  - inversion Hnd as [| ? ? Hfresh Hnd']; subst.
    rewrite field_step_value in Hrun.
    inversion Hf; subst.
    + destruct (value_of g) as [m | [v |]] eqn:Hg; [discriminate | |].
      * exists (Some v). split; [reflexivity |].
        rewrite (collect_other_key _ _ _ _ Hrun Hfresh). apply lookup_insert_eq.
      * exists None. split; [reflexivity |].
        apply (collect_other_key _ _ _ _ Hrun Hfresh).
    + assert (Hne : name g ≠ name f).
      { intros Heq. apply Hfresh. rewrite Heq. by apply list_elem_of_fmap_2. }
      destruct (value_of g) as [m | [v |]]; [discriminate | |].
      * destruct (IH _ Hnd' Hrun ltac:(assumption)) as (c & Hc & Hps).
        exists c. split; [assumption |]. rewrite Hps.
        destruct c; [reflexivity | by apply lookup_insert_ne].
      * by apply IH.
Qed.

(** Every entry of the collected parameters is the contribution of a field
    with that name. *)
Lemma collect_origin (l : list OrderFieldDefinition) ps key v :
  NoDup (map name l) -> collect l ∅ = inr ps -> ps !! key = Some v ->
  exists f, f ∈ l /\ name f = key /\ value_of f = inr (Some v).
Proof.
  intros Hnd Hrun Hps.
  destruct (decide (key ∈ map name l)) as [Hin | Hout].
  - apply list_elem_of_fmap in Hin as (f & -> & Hf).
    destruct (collect_field _ _ _ _ Hnd Hrun Hf) as (c & Hc & Hlook).
    rewrite Hps in Hlook. destruct c as [w |].
    + injection Hlook as ->. eauto.
    + rewrite lookup_empty in Hlook. discriminate.
  - rewrite (collect_other_key _ _ _ _ Hrun Hout), lookup_empty in Hps. discriminate.
Qed.

(** A field that refuses ends the loop with a message. *)
Lemma collect_refused (l : list OrderFieldDefinition) acc f message :
  f ∈ l -> value_of f = inl message -> exists message', collect l acc = inl message'.
Proof.
  revert acc. induction l as [| g l IH]; simpl; intros acc Hf Hv; [inversion Hf |].
  rewrite field_step_value.
  inversion Hf; subst.
  - rewrite Hv. eauto.
  - destruct (value_of g) as [m | [v |]]; eauto.
Qed.

(** A message that ends the loop is the refusal of one of the fields. *)
Lemma collect_refusal_origin (l : list OrderFieldDefinition) acc message :
  collect l acc = inl message -> exists f, f ∈ l /\ value_of f = inl message.
Proof.
  revert acc. induction l as [| g l IH]; simpl; intros acc; [discriminate |].
  rewrite field_step_value.
  destruct (value_of g) as [m | [v |]] eqn:Hg.
  - intros [= ->]. exists g. split; [apply list_elem_of_here | assumption].
  - intros (f & Hf & Hv)%IH. exists f. split; [by apply list_elem_of_further | assumption].
  - intros (f & Hf & Hv)%IH. exists f. split; [by apply list_elem_of_further | assumption].
Qed.

End Loop.

(* ===================================================================== *)
(** * 19. Submitting an order *)
(* ===================================================================== *)

Section Submission.

Variable JSON_parse_String : JsValue -> option JsValue.

#[local] Abbreviation submit := (handleSubmit JSON_parse_String).
#[local] Abbreviation contribution s :=
  (field_value JSON_parse_String (orderType s) (fieldState s) (legs s)).

(** What a posted request tells about the state it was built from. *)
Lemma handleSubmit_posted (s : BuilderState) (payload : OrderCreateRequest.t) :
  submit s = Mutate payload ->
  exists definition,
    current_definition s = Some definition /\
    (requiresArmy definition = true -> id_falsy (selectedArmyId s) = false) /\
    id_falsy (commanderId s) = false /\
    collect_parameters JSON_parse_String (orderType s) (fieldState s) (legs s)
      (fields definition) ∅ = inr (OrderCreateRequest.parameters payload) /\
    OrderCreateRequest.order_type payload = orderType s /\
    OrderCreateRequest.commander_id payload = commanderId s /\
    OrderCreateRequest.army_id payload = selectedArmyId s.
Proof.
  unfold handleSubmit, current_definition.
  destruct (lookup_definition ORDER_DEFINITIONS (orderType s)) as [d |].
  2: { destruct (existsb _ _); [destruct (id_falsy _) |]; discriminate. }
  destruct (requiresArmy d && id_falsy (selectedArmyId s)) eqn:Harmy; [discriminate |].
  destruct (id_falsy (commanderId s)) eqn:Hcmd; [discriminate |].
  destruct (collect_parameters _ _ _ _ _ _) as [m | ps] eqn:Hrun; [discriminate |].
  match goal with |- context [if ?c then SetError _ else _] => destruct c end;
    [discriminate |].
  intros [= <-]. exists d. simpl.
  split; [reflexivity |]. split.
  { intros Hreq. rewrite Hreq in Harmy. exact Harmy. }
  repeat split; auto.
  destruct (requiresArmy d), (selectedArmyId s); reflexivity.
Qed.

(** A state that is refused by a field posts nothing. *)
Lemma handleSubmit_refused (s : BuilderState) definition field message :
  current_definition s = Some definition ->
  field ∈ fields definition ->
  contribution s field = inl message ->
  exists message', submit s = SetError message'.
Proof.
  unfold handleSubmit, current_definition. intros -> Hin Hv.
  destruct (requiresArmy definition && id_falsy (selectedArmyId s)); [eauto |].
  destruct (id_falsy (commanderId s)); [eauto |].
  destruct (collect_refused JSON_parse_String _ _ _ _ ∅ _ _ Hin Hv) as (m & ->).
  eauto.
Qed.

(** The entry of a field in a posted request is the field's contribution. *)
Lemma posted_parameter (s : BuilderState) payload definition field :
  submit s = Mutate payload ->
  current_definition s = Some definition ->
  field ∈ fields definition ->
  contribution s field = inr (OrderCreateRequest.parameters payload !! name field).
Proof.
  intros (d & Hd & _ & _ & Hrun & _)%handleSubmit_posted Hdef Hin.
  rewrite Hd in Hdef. injection Hdef as ->.
  pose proof (definition_names_NoDup _ _ Hd) as Hnd.
  destruct (collect_field _ _ _ _ _ _ _ _ Hnd Hrun Hin) as (c & Hc & Hlook).
  rewrite Hc, Hlook. destruct c; [reflexivity | by rewrite lookup_empty].
Qed.

(** *** Contributions by field type *)

Lemma legs_contribution (s : BuilderState) field :
  type field = ft_movement_legs ->
  contribution s field =
  if String.eqb (orderType s) "move" && (length (preparedLegs (legs s)) =? 0)%nat
  then inl "Provide at least one movement leg."
  else inr (Some (VArr (preparedLegs (legs s)))).
Proof.
  intros Ht. unfold field_value, field_step. rewrite Ht.
  destruct (_ && _); [reflexivity |]. by rewrite lookup_insert_eq.
Qed.

Lemma number_contribution (s : BuilderState) field :
  type field = ft_number ->
  contribution s field =
  let value := get_prop (fieldState s) (name field) in
  if is_blank value then inr None
  else if Number_isFinite (ToNumber value) then inr (Some (VNum (ToNumber value)))
  else inl (label field ++ " must be a number.").
Proof.
  intros Ht. unfold field_value, field_step. rewrite Ht. cbv zeta.
  destruct (get_prop (fieldState s) (name field)) as [| | b | n | [| c r] | l | o];
    cbn [is_blank]; rewrite ?lookup_empty; try reflexivity;
    match goal with |- context [Number_isFinite ?x] => destruct (Number_isFinite x) end;
    cbn [negb]; rewrite ?lookup_insert_eq; reflexivity.
Qed.

Lemma choice_contribution (s : BuilderState) field :
  type field = ft_select \/ type field = ft_text \/ type field = ft_textarea ->
  contribution s field =
  let value := get_prop (fieldState s) (name field) in
  if match value with VStr text => is_empty (trim text) | _ => false end
     && default false (required field)
  then inl (label field ++ " is required.")
  else inr (if is_undefined value || is_empty_string value then None else Some value).
Proof.
  intros Ht. unfold field_value, field_step. cbv zeta.
  destruct Ht as [-> | [-> | ->]];
    (destruct (_ && _); [reflexivity |]);
    destruct (get_prop (fieldState s) (name field)) as [| | b | n | [| c r] | l | o];
    cbn [is_undefined is_empty_string orb];
    rewrite ?lookup_empty, ?lookup_insert_eq; reflexivity.
Qed.

Lemma checkbox_contribution (s : BuilderState) field :
  type field = ft_checkbox ->
  contribution s field =
  inr (Some (VBool (ToBoolean (get_prop (fieldState s) (name field))))).
Proof.
  intros Ht. unfold field_value, field_step. rewrite Ht. by rewrite lookup_insert_eq.
Qed.

Lemma prepare_leg_record (leg : MovementLegForm) : leg_record (prepare_leg leg) = true.
Proof.
  unfold prepare_leg. destruct (negb (is_empty (alternate_hex_id leg))); reflexivity.
Qed.

Lemma lookup_move : lookup_definition ORDER_DEFINITIONS "move" = Some def_move.
Proof. reflexivity. Qed.

Lemma move_legs_field :
  exists field, field ∈ fields def_move /\ name field = "legs" /\
                type field = ft_movement_legs.
Proof.
  eexists. split.
  { unfold def_move. cbn [fields].
    do 2 apply list_elem_of_further. apply list_elem_of_here. }
  split; reflexivity.
Qed.

(** C9.  In every request that is posted, commander_id is a number (not null,
    and not one of the falsy numbers); and when the definition of the selected
    order type has requiresArmy set, so is army_id. *)
Theorem posted_ids_not_null (s : BuilderState) (payload : OrderCreateRequest.t) :
  submit s = Mutate payload ->
  (exists commander,
      OrderCreateRequest.commander_id payload = Some commander /\
      number_falsy commander = false) /\
  (forall definition,
      lookup_definition ORDER_DEFINITIONS (OrderCreateRequest.order_type payload)
        = Some definition ->
      requiresArmy definition = true ->
      exists army,
        OrderCreateRequest.army_id payload = Some army /\ number_falsy army = false).
Proof.
  intros (d & Hd & Harmy & Hcmd & _ & Htype & Hc & Ha)%handleSubmit_posted.
  rewrite Hc, Ha, Htype. split.
  - destruct (commanderId s) as [c |]; [eauto | discriminate].
  - intros d' Hd' Hreq. unfold current_definition in Hd.
    rewrite Hd in Hd'. injection Hd' as <-.
    specialize (Harmy Hreq).
    destruct (selectedArmyId s) as [a |]; [eauto | discriminate].
Qed.

(** *** Movement orders *)

(** A posted move order carries its prepared legs, and there is one at
    least. *)
Lemma move_posted_legs (s : BuilderState) payload :
  orderType s = "move" ->
  submit s = Mutate payload ->
  OrderCreateRequest.parameters payload !! "legs" = Some (VArr (preparedLegs (legs s))) /\
  (1 <= length (preparedLegs (legs s)))%nat.
Proof.
  intros Htype Hpost.
  assert (Hdef : current_definition s = Some def_move).
  { unfold current_definition. rewrite Htype. reflexivity. }
  destruct move_legs_field as (lf & Hlf & Hname & Hlegs).
  pose proof (posted_parameter _ _ _ _ Hpost Hdef Hlf) as Hc.
  rewrite legs_contribution, Hname in Hc by assumption.
  destruct (_ && _) eqn:Hguard; [discriminate |].
  injection Hc as <-. split; [reflexivity |].
  rewrite Htype in Hguard.
  vm_compute (String.eqb "move" "move") in Hguard. cbn [andb] in Hguard.
  apply Nat.eqb_neq in Hguard. lia.
Qed.

(** C5.  A move order whose prepared leg list is empty is refused with a
    validation message and nothing is posted; a move order that is posted
    carries its prepared legs, one or more, under [legs]. *)
Theorem move_needs_a_leg (s : BuilderState) :
  orderType s = "move" ->
  (preparedLegs (legs s) = [] ->
   exists message,
     submit s = SetError message /\
     message ∈ [ "Select an army to issue this order.";
                 "Select a commander to authorise the order.";
                 "Weather Modifier must be a number.";
                 "Provide at least one movement leg." ]) /\
  (forall payload,
      submit s = Mutate payload ->
      OrderCreateRequest.parameters payload !! "legs" = Some (VArr (preparedLegs (legs s))) /\
      (1 <= length (preparedLegs (legs s)))%nat).
Proof.
  intros Htype.
  assert (Hdef : current_definition s = Some def_move).
  { unfold current_definition. rewrite Htype. reflexivity. }
  destruct move_legs_field as (lf & Hlf & Hname & Hlegs).
  split.
  - intros Hnone.
    assert (Hrefuse : contribution s lf = inl "Provide at least one movement leg.").
    { rewrite legs_contribution, Htype, Hnone by assumption. reflexivity. }
    unfold handleSubmit. unfold current_definition in Hdef. rewrite Hdef.
    cbn [requiresArmy def_move andb].
    destruct (id_falsy (selectedArmyId s)); [eexists; split; [reflexivity | in_literal] |].
    destruct (id_falsy (commanderId s)); [eexists; split; [reflexivity | in_literal] |].
    destruct (collect_parameters _ _ _ _ _ _) as [m | ps] eqn:Hrun.
    + exists m. split; [reflexivity |].
      apply collect_refusal_origin in Hrun as (f & Hf & Hv).
      unfold def_move in Hf. cbn [fields] in Hf.
      apply elem_of_cons in Hf as [-> | Hf].
      { rewrite choice_contribution in Hv by (left; reflexivity).
        cbn [required from_option] in Hv. rewrite andb_false_r in Hv. discriminate. }
      apply elem_of_cons in Hf as [-> | Hf].
      { rewrite number_contribution in Hv by reflexivity. cbv zeta in Hv.
        destruct (is_blank _); [discriminate |].
        destruct (Number_isFinite _); [discriminate |].
        injection Hv as <-. in_literal. }
      apply elem_of_cons in Hf as [-> | Hf]; [| inversion Hf].
      rewrite legs_contribution in Hv by reflexivity.
      destruct (_ && _); [| discriminate]. injection Hv as <-. in_literal.
    + destruct (collect_refused JSON_parse_String _ _ _ _ ∅ _ _ Hlf Hrefuse) as (m & Hm).
      rewrite Hm in Hrun. discriminate.
  - intros payload Hpost. by apply move_posted_legs.
Qed.

(** C6.  Every leg under [legs] in a posted move order is the record built
    from a filled row of the leg table: [to_hex_id] and [distance_miles] are
    numbers, [on_road], [has_river_ford], [is_night] and [has_fork] are
    booleans, and [alternate_hex_id] is a number when the row gives an
    alternate hex and [undefined] otherwise. *)
Theorem posted_legs_are_records (s : BuilderState) (payload : OrderCreateRequest.t) :
  orderType s = "move" ->
  submit s = Mutate payload ->
  exists prepared,
    OrderCreateRequest.parameters payload !! "legs" = Some (VArr prepared) /\
    prepared = map prepare_leg (List.filter leg_filled (legs s)) /\
    Forall (fun leg => leg_record leg = true) prepared /\
    Forall (fun row =>
              exists to_hex distance alternate,
                prepare_leg row =
                VObj [ ("to_hex_id", VNum to_hex); ("distance_miles", VNum distance);
                       ("on_road", VBool (on_road row));
                       ("has_river_ford", VBool (has_river_ford row));
                       ("is_night", VBool (is_night row));
                       ("has_fork", VBool (has_fork row));
                       ("alternate_hex_id", alternate) ] /\
                to_hex = StringToNumber (to_hex_id row) /\
                distance = StringToNumber (distance_miles row) /\
                alternate = if is_empty (alternate_hex_id row) then VUndefined
                            else VNum (StringToNumber (alternate_hex_id row)))
           (List.filter leg_filled (legs s)).
Proof.
  intros Htype Hpost.
  destruct (move_posted_legs s payload Htype Hpost) as [Hlook _].
  exists (preparedLegs (legs s)). split; [assumption |]. split; [reflexivity |]. split.
  - unfold preparedLegs. apply Forall_fmap, Forall_forall. intros row _.
    apply prepare_leg_record.
  - apply Forall_forall. intros row _.
    eexists _, _, _. split; [| repeat split].
    unfold prepare_leg. destruct (is_empty (alternate_hex_id row)); reflexivity.
Qed.

(** *** Number fields *)

Lemma find_field_elem definition key field :
  find_field definition key = Some field ->
  field ∈ fields definition /\ name field = key.
Proof.
  unfold find_field. intros H. apply find_some in H as [Hin Heq].
  split; [by apply list_elem_of_In | by apply String.eqb_eq].
Qed.

Lemma posted_number (s : BuilderState) payload definition field :
  submit s = Mutate payload ->
  current_definition s = Some definition ->
  field ∈ fields definition ->
  type field = ft_number ->
  let value := get_prop (fieldState s) (name field) in
  if is_blank value
  then OrderCreateRequest.parameters payload !! name field = None
  else OrderCreateRequest.parameters payload !! name field = Some (VNum (ToNumber value))
       /\ Number_isFinite (ToNumber value) = true.
Proof.
  intros Hpost Hdef Hin Ht.
  pose proof (posted_parameter _ _ _ _ Hpost Hdef Hin) as Hc.
  rewrite number_contribution in Hc by assumption. cbv zeta in *.
  destruct (is_blank _); [by injection Hc |].
  destruct (Number_isFinite _); [| discriminate].
  by injection Hc.
Qed.

(** C10.  For a number field of the selected order type: in a posted request
    its entry, when there is one, is a finite number; a blank input leaves the
    entry out; and an input that is not blank and does not convert to a
    finite number ends the submission with an error, nothing being posted. *)
Theorem number_parameters_finite (s : BuilderState) definition field :
  current_definition s = Some definition ->
  field ∈ fields definition ->
  type field = ft_number ->
  let value := get_prop (fieldState s) (name field) in
  (forall payload v,
      submit s = Mutate payload ->
      OrderCreateRequest.parameters payload !! name field = Some v ->
      exists n, v = VNum n /\ Number_isFinite n = true) /\
  (forall payload,
      submit s = Mutate payload ->
      is_blank value = true ->
      OrderCreateRequest.parameters payload !! name field = None) /\
  (is_blank value = false ->
   Number_isFinite (ToNumber value) = false ->
   exists message, submit s = SetError message).
Proof.
  intros Hdef Hin Ht value. split; [| split].
  - intros payload v Hpost Hlook.
    pose proof (posted_number _ _ _ _ Hpost Hdef Hin Ht) as Hnum. cbv zeta in Hnum.
    destruct (is_blank _).
    + rewrite Hnum in Hlook. discriminate.
    + destruct Hnum as [Hnum Hfin]. rewrite Hnum in Hlook. injection Hlook as <-. eauto.
  - intros payload Hpost Hblank.
    pose proof (posted_number _ _ _ _ Hpost Hdef Hin Ht) as Hnum. cbv zeta in Hnum.
    fold value in Hnum. by rewrite Hblank in Hnum.
  - intros Hblank Hnan.
    apply (handleSubmit_refused s definition field (label field ++ " must be a number."));
      [assumption | assumption |].
    rewrite number_contribution by assumption. cbv zeta. fold value.
    by rewrite Hblank, Hnan.
Qed.

(** *** The assault order *)

(** C7.  The assault definition requires an army and lists, in order:
    [stronghold_id], a number marked required; [pillage], a checkbox;
    [attacker_modifier] and [defender_modifier], numbers that start at 0;
    [attacker_fixed_roll] and [defender_fixed_roll], numbers that are not
    marked required and have no default.  A posted assault carries the
    pillage flag, and carries each modifier and each fixed roll exactly when
    its input is not blank, as the number entered. *)
Theorem assault_shape :
  lookup_definition ORDER_DEFINITIONS "assault" = Some def_assault /\
  requiresArmy def_assault = true /\
  map (fun field => (name field, type field, required field, defaultValue field))
      (fields def_assault) =
  [ ("stronghold_id", ft_number, Some true, None);
    ("pillage", ft_checkbox, None, None);
    ("attacker_modifier", ft_number, None, Some (VNum js_zero));
    ("defender_modifier", ft_number, None, Some (VNum js_zero));
    ("attacker_fixed_roll", ft_number, None, None);
    ("defender_fixed_roll", ft_number, None, None) ] /\
  map (fun field => (name field, reset_value field)) (fields def_assault) =
  [ ("stronghold_id", VStr ""); ("pillage", VBool false);
    ("attacker_modifier", VNum js_zero); ("defender_modifier", VNum js_zero);
    ("attacker_fixed_roll", VStr ""); ("defender_fixed_roll", VStr "") ] /\
  (forall s payload,
      orderType s = "assault" ->
      submit s = Mutate payload ->
      OrderCreateRequest.parameters payload !! "pillage"
        = Some (VBool (ToBoolean (get_prop (fieldState s) "pillage"))) /\
      forall key,
        key ∈ [ "attacker_modifier"; "defender_modifier";
                "attacker_fixed_roll"; "defender_fixed_roll" ] ->
        let value := get_prop (fieldState s) key in
        if is_blank value
        then OrderCreateRequest.parameters payload !! key = None
        else OrderCreateRequest.parameters payload !! key = Some (VNum (ToNumber value))
             /\ Number_isFinite (ToNumber value) = true).
Proof.
  split; [reflexivity |]. split; [reflexivity |].
  split; [reflexivity |]. split; [reflexivity |].
  intros s payload Htype Hpost.
  assert (Hdef : current_definition s = Some def_assault).
  { unfold current_definition. rewrite Htype. reflexivity. }
  split.
  - assert (Hf : find_field def_assault "pillage" <> None) by discriminate.
    destruct (find_field def_assault "pillage") as [f |] eqn:Hfind; [| contradiction].
    pose proof Hfind as [Hin Hname]%find_field_elem.
    pose proof (posted_parameter _ _ _ _ Hpost Hdef Hin) as Hc.
    rewrite checkbox_contribution in Hc by (by injection Hfind as <-).
    rewrite Hname in Hc. by injection Hc.
  - intros key Hkey.
    assert (exists f, find_field def_assault key = Some f /\ type f = ft_number)
      as (f & Hfind & Ht).
    { repeat (apply elem_of_cons in Hkey as [-> | Hkey];
              [eexists; split; reflexivity |]).
      inversion Hkey. }
    apply find_field_elem in Hfind as [Hin <-].
    exact (posted_number _ _ _ _ Hpost Hdef Hin Ht).
Qed.

End Submission.

(* ===================================================================== *)
(** * 20. Reachable states of the form *)
(* ===================================================================== *)

Lemma ORDER_TYPES_closed :
  ORDER_TYPES =
  [ "move"; "rest"; "forage"; "torch"; "supply_transfer"; "besiege"; "assault";
    "embark"; "disembark"; "naval_move"; "send_message"; "launch_operation";
    "raise_army"; "harry" ].
Proof. reflexivity. Qed.

Lemma reset_other_key (l : list OrderFieldDefinition) (acc : gmap string JsValue) key :
  key ∉ map name l ->
  foldl (fun base field => <[name field := reset_value field]> base) acc l !! key
  = acc !! key.
Proof.
  revert acc. induction l as [| g l IH]; simpl; intros acc Hkey; [reflexivity |].
  apply not_elem_of_cons in Hkey as [Hne Hkey].
  rewrite IH by assumption. by apply lookup_insert_ne.
Qed.

Lemma reset_lookup (l : list OrderFieldDefinition) (acc : gmap string JsValue) f :
  NoDup (map name l) -> f ∈ l ->
  foldl (fun base field => <[name field := reset_value field]> base) acc l !! name f
  = Some (reset_value f).
Proof.
  revert acc. induction l as [| g l IH]; simpl; intros acc Hnd Hf; [inversion Hf |].
  inversion Hnd as [| ? ? Hfresh Hnd']; subst.
  inversion Hf; subst.
  - rewrite reset_other_key by assumption. apply lookup_insert_eq.
  - by apply IH.
Qed.

Lemma select_reset_on_option key definition field :
  lookup_definition ORDER_DEFINITIONS key = Some definition ->
  field ∈ fields definition ->
  type field = ft_select ->
  exists chosen, reset_value field = VStr chosen /\ chosen ∈ option_values field.
Proof.
  intros Hwf%definition_well_formed Hin Ht. unfold well_formed in Hwf.
  apply andb_prop in Hwf as [Hwf _]. apply andb_prop in Hwf as [_ Hsel].
  rewrite forallb_forall in Hsel.
  specialize (Hsel field ltac:(by apply list_elem_of_In)).
  unfold select_starts_on_option in Hsel. rewrite Ht in Hsel.
  apply andb_prop in Hsel as [Hsel _].
  destruct (reset_value field) as [| | | | chosen | |]; try discriminate.
  exists chosen. split; [reflexivity | by apply existsb_eqb_elem].
Qed.

Lemma run_reset_selects (s : BuilderState) :
  is_Some (current_definition s) -> selects_on_options (run_reset s).
Proof.
  intros [d Hd]. unfold run_reset. rewrite Hd.
  exists d. split; [exact Hd |].
  intros field Hin Ht.
  destruct (select_reset_on_option _ _ _ Hd Hin Ht) as (chosen & Hreset & Hopt).
  exists chosen. split; [| assumption].
  cbn [resetFields fieldState]. rewrite <- Hreset.
  apply reset_lookup; [| assumption].
  eapply definition_names_NoDup, Hd.
Qed.

Lemma selects_on_options_frame (s s' : BuilderState) :
  orderType s' = orderType s -> fieldState s' = fieldState s ->
  selects_on_options s -> selects_on_options s'.
Proof.
  intros Ht Hf (d & Hd & Hsel). exists d. unfold current_definition in *.
  rewrite Ht, Hf. auto.
Qed.

Section Reachability.

Variable JSON_parse_String : JsValue -> option JsValue.

Lemma step_selects (s s' : BuilderState) :
  step JSON_parse_String s s' -> selects_on_options s -> selects_on_options s'.
Proof.
  intros Hstep Hinv.
  destruct Hstep as
    [ s value Hvalue | s d g value Hd Hg Hreport | | | | | | | | | | | ];
    try (by eapply selects_on_options_frame; [| | exact Hinv]).
  - unfold setOrderType. destruct (String.eqb value (orderType s)); [assumption |].
    apply run_reset_selects. unfold current_definition. cbn [with_orderType orderType].
    by apply lookup_definition_is_Some.
  - destruct Hinv as (d' & Hd' & Hsel). rewrite Hd in Hd'. injection Hd' as <-.
    exists d. split; [exact Hd |]. intros f Hf Ht. cbn [updateField fieldState].
    destruct (decide (name g = name f)) as [Heq | Hne].
    + assert (g = f) as ->.
      { eapply same_name_same_field; eauto. eapply definition_names_NoDup, Hd. }
      unfold control_reports in Hreport. rewrite Ht in Hreport.
      destruct value as [| | | | chosen | |]; try discriminate.
      exists chosen. split; [apply lookup_insert_eq | by apply existsb_eqb_elem].
    + rewrite lookup_insert_ne by assumption. by apply Hsel.
  - apply run_reset_selects. destruct Hinv as (d & Hd & _). by exists d.
Qed.

Lemma reachable_selects (s : BuilderState) :
  reachable JSON_parse_String s -> selects_on_options s.
Proof.
  induction 1 as [| s s' _ IH Hstep].
  - apply run_reset_selects. by eexists.
  - eapply step_selects; eassumption.
Qed.

(** *** Order types *)

Lemma check_order_type_known (t : string) :
  t ∉ ORDER_TYPES <-> check_order_type t = inl ValidationError.
Proof.
  rewrite ORDER_TYPES_closed. unfold check_order_type.
  repeat match goal with
         | |- context [String.eqb t ?known] =>
             destruct (String.eqb_spec t known) as [-> | ?];
             [split; [intros H; exfalso; apply H; in_literal | discriminate] |]
         end.
  split; [reflexivity |]. intros _ Hin.
  repeat (apply elem_of_cons in Hin as [-> | Hin]; [contradiction |]).
  inversion Hin.
Qed.

Lemma check_order_type_error (t : string) (e : EngineError) :
  check_order_type t = inl e -> e = ValidationError.
Proof.
  unfold check_order_type.
  repeat match goal with
         | |- (if ?b then _ else _) = _ -> _ => destruct b; [discriminate |]
         end.
  congruence.
Qed.

(** C2.  [ORDER_TYPES], the keys of [ORDER_DEFINITIONS], is the list of the
    fourteen order types; the order_type of every request that is posted is
    one of them and is recognised by the engine; a form state with any other
    order type posts nothing; and the engine answers ValidationError exactly
    for the order types outside the list. *)
Theorem order_types_closed_set :
  ORDER_TYPES =
  [ "move"; "rest"; "forage"; "torch"; "supply_transfer"; "besiege"; "assault";
    "embark"; "disembark"; "naval_move"; "send_message"; "launch_operation";
    "raise_army"; "harry" ] /\
  (forall s payload,
      handleSubmit JSON_parse_String s = Mutate payload ->
      OrderCreateRequest.order_type payload ∈ ORDER_TYPES /\
      exists kind, check_order_type (OrderCreateRequest.order_type payload) = inr kind) /\
  (forall s, reachable JSON_parse_String s -> orderType s ∈ ORDER_TYPES) /\
  (forall s payload, orderType s ∉ ORDER_TYPES ->
                     handleSubmit JSON_parse_String s <> Mutate payload) /\
  (forall t, t ∉ ORDER_TYPES <-> check_order_type t = inl ValidationError).
Proof.
  split; [exact ORDER_TYPES_closed |]. split; [| split; [| split]].
  - intros s payload (d & Hd & _ & _ & _ & -> & _)%handleSubmit_posted.
    assert (Hin : orderType s ∈ ORDER_TYPES).
    { apply lookup_definition_is_Some. by exists d. }
    split; [assumption |].
    destruct (check_order_type (orderType s)) as [e | kind] eqn:Hcheck; [| eauto].
    exfalso. pose proof (check_order_type_error _ _ Hcheck) as ->.
    by eapply check_order_type_known.
  - intros s (d & Hd & _)%reachable_selects.
    apply lookup_definition_is_Some. by exists d.
  - intros s payload Hout (d & Hd & _)%handleSubmit_posted.
    apply Hout, lookup_definition_is_Some. by exists d.
  - exact check_order_type_known.
Qed.

(** *** Territory types *)

Lemma territory_field_is_select key definition field :
  lookup_definition ORDER_DEFINITIONS key = Some definition ->
  field ∈ fields definition ->
  name field = "territory_type" ->
  type field = ft_select /\
  forall chosen, chosen ∈ option_values field -> chosen ∈ TERRITORY_TYPES.
Proof.
  intros Hwf%definition_well_formed Hin Hname. unfold well_formed in Hwf.
  apply andb_prop in Hwf as [_ Hterr]. rewrite forallb_forall in Hterr.
  specialize (Hterr field ltac:(by apply list_elem_of_In)).
  unfold territory_is_select in Hterr. rewrite Hname in Hterr.
  vm_compute (String.eqb "territory_type" "territory_type") in Hterr. cbv iota in Hterr.
  destruct (type field); try discriminate. split; [reflexivity |].
  intros chosen Hchosen. rewrite forallb_forall in Hterr.
  apply existsb_eqb_elem, Hterr. by apply list_elem_of_In.
Qed.

(** C8.  In both the send_message and the launch_operation definition,
    [territory_type] is a select over exactly friendly, neutral and hostile
    that starts on friendly; send_message also marks [recipient_id] and
    [content] required.  No request that the form posts carries a
    territory_type outside the three, and a posted send_message or
    launch_operation order carries one. *)
Theorem territory_type_closed_set :
  (forall key,
      key ∈ ["send_message"; "launch_operation"] ->
      exists definition field,
        lookup_definition ORDER_DEFINITIONS key = Some definition /\
        find_field definition "territory_type" = Some field /\
        type field = ft_select /\
        option_values field = ["friendly"; "neutral"; "hostile"] /\
        defaultValue field = Some (VStr "friendly") /\
        reset_value field = VStr "friendly") /\
  map (fun field => (name field, type field, required field)) (fields def_send_message) =
  [ ("recipient_id", ft_number, Some true);
    ("content", ft_textarea, Some true);
    ("territory_type", ft_select, None) ] /\
  (forall payload,
      posts JSON_parse_String payload ->
      (forall v,
          OrderCreateRequest.parameters payload !! "territory_type" = Some v ->
          exists territory,
            v = VStr territory /\ territory ∈ ["friendly"; "neutral"; "hostile"]) /\
      (OrderCreateRequest.order_type payload ∈ ["send_message"; "launch_operation"] ->
       is_Some (OrderCreateRequest.parameters payload !! "territory_type"))).
Proof.
  split; [| split; [reflexivity |]].
  { intros key Hkey.
    repeat (apply elem_of_cons in Hkey as [-> | Hkey];
            [eexists _, _; repeat split; reflexivity |]).
    inversion Hkey. }
  intros payload (s & Hreach & Hpost).
  pose proof (reachable_selects _ Hreach) as (d & Hd & Hsel).
  pose proof Hpost as (d' & Hd' & _ & _ & Hrun & Htype & _)%handleSubmit_posted.
  rewrite Hd in Hd'. injection Hd' as <-.
  pose proof (definition_names_NoDup _ _ Hd) as Hnd.
  assert (Hfield : forall f, f ∈ fields d -> name f = "territory_type" ->
            exists territory,
              OrderCreateRequest.parameters payload !! "territory_type"
                = Some (VStr territory) /\ territory ∈ TERRITORY_TYPES).
  { intros f Hf Hname.
    destruct (territory_field_is_select _ _ _ Hd Hf Hname) as [Ht Hopts].
    destruct (Hsel f Hf Ht) as (chosen & Hstate & Hchosen).
    pose proof (posted_parameter _ _ _ _ _ Hpost Hd Hf) as Hc.
    rewrite choice_contribution in Hc by (by left). cbv zeta in Hc.
    unfold get_prop in Hc. rewrite Hstate in Hc. cbn [from_option id] in Hc.
    destruct (_ && _); [discriminate |].
    exists chosen. split; [| by apply Hopts].
    rewrite Hname in Hc.
    assert (Hne : chosen <> "").
    { intros ->. specialize (Hopts _ Hchosen).
      repeat (apply elem_of_cons in Hopts as [[=] | Hopts]). inversion Hopts. }
    destruct chosen; [contradiction |].
    cbn [is_undefined is_empty_string orb] in Hc. by injection Hc. }
  split.
  - intros v Hv.
    destruct (collect_origin _ _ _ _ _ _ _ _ Hnd Hrun Hv) as (f & Hf & Hname & _).
    destruct (Hfield f Hf Hname) as (territory & Hlook & Hin).
    rewrite Hlook in Hv. injection Hv as <-. eauto.
  - rewrite Htype. intros Hkey. unfold current_definition in Hd.
    assert (exists f, f ∈ fields d /\ name f = "territory_type") as (f & Hf & Hname).
    { apply elem_of_cons in Hkey as [Hkey | Hkey].
      { rewrite Hkey in Hd. change (Some def_send_message = Some d) in Hd.
        injection Hd as <-. eexists. split.
        - cbn [fields def_send_message]. do 2 apply list_elem_of_further.
          apply list_elem_of_here.
        - reflexivity. }
      apply elem_of_cons in Hkey as [Hkey | Hkey]; [| inversion Hkey].
      rewrite Hkey in Hd. change (Some def_launch_operation = Some d) in Hd.
      injection Hd as <-. eexists. split.
      - cbn [fields def_launch_operation]. do 4 apply list_elem_of_further.
        apply list_elem_of_here.
      - reflexivity. }
    destruct (Hfield f Hf Hname) as (territory & Hlook & _). eauto.
Qed.

End Reachability.

(* ===================================================================== *)
(** * 21. Concrete runs *)
(* ===================================================================== *)

Example number_of_half : StringToNumber "0.5" = S754_finite false 4503599627370496 (-53).
Proof. vm_compute. reflexivity. Qed.

Example number_of_blank : StringToNumber "  " = S754_zero false.
Proof. vm_compute. reflexivity. Qed.

Example number_of_word : StringToNumber "twelve" = S754_nan.
Proof. vm_compute. reflexivity. Qed.

Example number_of_hex : StringToNumber "0x1F" = js_of_Z 31.
Proof. vm_compute. reflexivity. Qed.

Example number_of_huge : StringToNumber "1e400" = S754_infinity false.
Proof. vm_compute. reflexivity. Qed.

Example advance_of_nothing : handleAdvance "" = None.
Proof. vm_compute. reflexivity. Qed.

Example advance_of_negative : handleAdvance "-2" = None.
Proof. vm_compute. reflexivity. Qed.

Example advance_of_infinity : handleAdvance "Infinity" = None.
Proof. vm_compute. reflexivity. Qed.

Example advance_of_half : handleAdvance "0.5" = Some (S754_finite false 4503599627370496 (-53)).
Proof. vm_compute. reflexivity. Qed.

(** The guard of the handler would let half a day through; the control's
    minimum and step keep the form from submitting it. *)
Example half_day_not_submitted :
  satisfies_constraints DAYS_INPUT "0.5" = false /\
  satisfies_constraints DAYS_INPUT "1.5" = false /\
  satisfies_constraints DAYS_INPUT "0" = false /\
  satisfies_constraints DAYS_INPUT "-2" = false /\
  submitAdvance false "0.5" = None.
Proof. repeat split; vm_compute; reflexivity. Qed.

(** Values that satisfy the constraints: the handler stops the empty one and
    the one beyond the doubles. *)
Example submitted_days :
  submitAdvance false "1" = Some (js_of_Z 1) /\
  submitAdvance false "1e2" = Some (js_of_Z 100) /\
  submitAdvance false "2.50e1" = Some (js_of_Z 25) /\
  satisfies_constraints DAYS_INPUT "" = true /\
  submitAdvance false "" = None /\
  satisfies_constraints DAYS_INPUT "1e400" = true /\
  submitAdvance false "1e400" = None /\
  submitAdvance true "1" = None.
Proof. repeat split; vm_compute; reflexivity. Qed.

(** The values a number control holds, the initial "1" of the day count
    among them, and texts it does not hold. *)
Example number_control_values :
  number_input_reports "1" = true /\
  number_input_reports "" = true /\
  number_input_reports "-.5e+3" = true /\
  number_input_reports "12" = true /\
  number_input_reports "1." = false /\
  number_input_reports "+1" = false /\
  number_input_reports " 1" = false /\
  number_input_reports "0x10" = false /\
  number_input_reports "Infinity" = false /\
  number_input_reports "1e" = false.
Proof. repeat split; vm_compute; reflexivity. Qed.

(** While a cancellation is in flight the button of an executing order is
    shown, disabled. *)
Example cancel_button_in_flight :
  cancel_button true sample_row
    = Some {| onClick := OrderSummary.id sample_row; disabled := true |} /\
  cancel_click true sample_row = None /\
  cancel_click false sample_row = Some (OrderSummary.id sample_row).
Proof. repeat split; vm_compute; reflexivity. Qed.

Example mounted_on_move :
  orderType mounted = "move" /\
  map_to_list (fieldState mounted) =
  [ ("weather_modifier", VNum js_zero); ("movement_type", VStr "standard");
    ("legs", VArr []) ].
Proof. split; vm_compute; reflexivity. Qed.

Example blank_march_refused :
  handleSubmit parse_literals
    {| orderType := orderType sample_move; fieldState := fieldState sample_move;
       legs := [defaultLeg]; commanderId := commanderId sample_move;
       executeDay := ""; executePart := ""; priority := js_zero; error := None;
       selectedArmyId := selectedArmyId sample_move |}
  = SetError "Provide at least one movement leg.".
Proof. vm_compute. reflexivity. Qed.

(** A required number left blank does not stop the submission: the entry is
    left out of the request. *)
(** An order type that names an inherited property is stopped by the
    commander check or by the loop. *)
Example inherited_order_type :
  handleSubmit parse_literals (with_orderType "toString" mounted)
    = SetError "Select a commander to authorise the order." /\
  handleSubmit parse_literals (with_orderType "toString" sample_move) = ThrowsTypeError /\
  handleSubmit parse_literals (with_orderType "retreat" mounted) = ThrowsTypeError.
Proof. repeat split; vm_compute; reflexivity. Qed.

Example assault_without_stronghold :
  exists payload,
    handleSubmit parse_literals (updateField "stronghold_id" (VStr "") sample_assault)
      = Mutate payload /\
    OrderCreateRequest.parameters payload !! "stronghold_id" = None.
Proof. eexists. split; [vm_compute; reflexivity | vm_compute; reflexivity]. Qed.

(** A field of the current definition, given by its name, can be updated. *)
Lemma step_field_named parse (s : BuilderState) definition key field value :
  current_definition s = Some definition ->
  find_field definition key = Some field ->
  control_reports field value = true ->
  step parse s (updateField key value s).
Proof.
  intros Hd [Hin <-]%find_field_elem Hreport. by eapply step_field.
Qed.

Lemma sample_message_reachable parse : reachable parse sample_message.
Proof.
  unfold sample_message. cbv zeta.
  eapply reachable_step; [| apply step_commander].
  eapply reachable_step;
    [| eapply step_field_named; [reflexivity | reflexivity | reflexivity]].
  eapply reachable_step;
    [| eapply step_field_named; [reflexivity | reflexivity | reflexivity]].
  eapply reachable_step;
    [| eapply step_field_named; [reflexivity | reflexivity | reflexivity]].
  eapply reachable_step; [apply reachable_mounted |].
  apply step_order_type. rewrite ORDER_TYPES_closed. in_literal.
Qed.

Lemma sample_move_posts :
  exists payload, handleSubmit parse_literals sample_move = Mutate payload.
Proof.
  destruct (handleSubmit parse_literals sample_move) as [m | payload |] eqn:H;
    [vm_compute in H; discriminate | eauto | vm_compute in H; discriminate].
Qed.

Lemma sample_assault_posts :
  exists payload, handleSubmit parse_literals sample_assault = Mutate payload.
Proof.
  destruct (handleSubmit parse_literals sample_assault) as [m | payload |] eqn:H;
    [vm_compute in H; discriminate | eauto | vm_compute in H; discriminate].
Qed.

Lemma sample_message_posts :
  exists payload, handleSubmit parse_literals sample_message = Mutate payload.
Proof.
  destruct (handleSubmit parse_literals sample_message) as [m | payload |] eqn:H;
    [vm_compute in H; discriminate | eauto | vm_compute in H; discriminate].
Qed.

Lemma sample_assault_attacker_roll payload :
  handleSubmit parse_literals sample_assault = Mutate payload ->
  is_Some (OrderCreateRequest.parameters payload !! "attacker_fixed_roll").
Proof.
  intros Hpost.
  destruct (find_field def_assault "attacker_fixed_roll") as [field |] eqn:Hfind;
    [| discriminate].
  pose proof Hfind as [Hin Hname]%find_field_elem.
  assert (Ht : type field = ft_number) by (by injection Hfind as <-).
  pose proof (posted_number parse_literals sample_assault payload def_assault field
                Hpost eq_refl Hin Ht) as Hnum.
  cbv zeta in Hnum. rewrite Hname in Hnum.
  change (is_blank (get_prop (fieldState sample_assault) "attacker_fixed_roll"))
    with false in Hnum.
  destruct Hnum as [-> _]. eauto.
Qed.

Lemma order_types_closed_set_witness :
  exists payload,
    handleSubmit parse_literals sample_message = Mutate payload /\
    OrderCreateRequest.order_type payload ∈ ORDER_TYPES /\
    exists kind, check_order_type (OrderCreateRequest.order_type payload) = inr kind.
Proof.
  destruct sample_message_posts as (payload & Hpost).
  exists payload. split; [exact Hpost |].
  destruct (order_types_closed_set parse_literals) as (_ & Hposted & _).
  exact (Hposted _ _ Hpost).
Defined.

Lemma move_needs_a_leg_witness :
  exists payload,
    handleSubmit parse_literals sample_move = Mutate payload /\
    OrderCreateRequest.parameters payload !! "legs"
      = Some (VArr (preparedLegs (legs sample_move))) /\
    (1 <= length (preparedLegs (legs sample_move)))%nat.
Proof.
  destruct sample_move_posts as (payload & Hpost).
  exists payload. split; [exact Hpost |].
  exact (proj2 (move_needs_a_leg parse_literals sample_move eq_refl) payload Hpost).
Defined.

Lemma posted_legs_are_records_witness :
  exists payload prepared,
    handleSubmit parse_literals sample_move = Mutate payload /\
    OrderCreateRequest.parameters payload !! "legs" = Some (VArr prepared) /\
    Forall (fun leg => leg_record leg = true) prepared.
Proof.
  destruct sample_move_posts as (payload & Hpost).
  destruct (posted_legs_are_records parse_literals sample_move payload eq_refl Hpost)
    as (prepared & Hlook & _ & Hshape & _).
  exists payload, prepared. auto.
Defined.

Lemma assault_shape_witness :
  exists payload,
    handleSubmit parse_literals sample_assault = Mutate payload /\
    OrderCreateRequest.parameters payload !! "attacker_fixed_roll"
      = Some (VNum (StringToNumber "20")) /\
    OrderCreateRequest.parameters payload !! "defender_fixed_roll"
      = Some (VNum (StringToNumber "1")).
Proof.
  destruct sample_assault_posts as (payload & Hpost).
  exists payload. split; [exact Hpost |].
  destruct (assault_shape parse_literals) as (_ & _ & _ & _ & Hposted).
  destruct (Hposted sample_assault payload eq_refl Hpost) as [_ Hkeys].
  split.
  - exact (proj1 (Hkeys "attacker_fixed_roll" ltac:(in_literal))).
  - exact (proj1 (Hkeys "defender_fixed_roll" ltac:(in_literal))).
Defined.

Lemma territory_type_closed_set_witness :
  exists payload territory,
    posts parse_literals payload /\
    OrderCreateRequest.parameters payload !! "territory_type" = Some (VStr territory) /\
    territory ∈ ["friendly"; "neutral"; "hostile"].
Proof.
  destruct sample_message_posts as (payload & Hpost).
  assert (Hposts : posts parse_literals payload).
  { exists sample_message. split; [apply sample_message_reachable | exact Hpost]. }
  destruct (territory_type_closed_set parse_literals) as (_ & _ & Hclosed).
  destruct (Hclosed payload Hposts) as [Hin Hsome].
  destruct Hsome as [v Hv].
  { apply handleSubmit_posted in Hpost as (_ & _ & _ & _ & _ & -> & _). in_literal. }
  destruct (Hin v Hv) as (territory & -> & Hterritory).
  exists payload, territory. auto.
Defined.

Lemma posted_ids_not_null_witness :
  exists payload commander army,
    handleSubmit parse_literals sample_move = Mutate payload /\
    OrderCreateRequest.commander_id payload = Some commander /\
    number_falsy commander = false /\
    OrderCreateRequest.army_id payload = Some army /\
    number_falsy army = false.
Proof.
  destruct sample_move_posts as (payload & Hpost).
  destruct (posted_ids_not_null parse_literals sample_move payload Hpost)
    as [(commander & Hc & Hcn) Harmy].
  destruct (Harmy def_move) as (army & Ha & Han).
  { apply handleSubmit_posted in Hpost as (_ & _ & _ & _ & _ & -> & _). reflexivity. }
  { reflexivity. }
  exists payload, commander, army. auto.
Defined.

Lemma number_parameters_finite_witness :
  exists payload n,
    handleSubmit parse_literals sample_assault = Mutate payload /\
    OrderCreateRequest.parameters payload !! "attacker_fixed_roll" = Some (VNum n) /\
    Number_isFinite n = true.
Proof.
  destruct sample_assault_posts as (payload & Hpost).
  destruct (find_field def_assault "attacker_fixed_roll") as [field |] eqn:Hfind;
    [| discriminate].
  pose proof Hfind as [Hin Hname]%find_field_elem.
  assert (Ht : type field = ft_number) by (by injection Hfind as <-).
  destruct (number_parameters_finite parse_literals sample_assault def_assault field
              eq_refl Hin Ht) as (Hfinite & _ & _).
  destruct (sample_assault_attacker_roll payload Hpost) as (v & Hv).
  rewrite <- Hname in Hv.
  destruct (Hfinite payload v Hpost Hv) as (n & -> & Hn).
  rewrite Hname in Hv. exists payload, n. auto.
Defined.

(* ===================================================================== *)
(** * 22. Strict equality of numbers *)
(* ===================================================================== *)

Lemma js_strict_eq_true (x y : JsNumber) :
  js_strict_eq x y = true ->
  (x = y /\ Number_isNaN x = false) \/
  (exists s s', x = S754_zero s /\ y = S754_zero s').
Proof.
  unfold js_strict_eq, SFeqb.
  destruct x as [sx | sx | | sx mx ex], y as [sy | sy | | sy my ey]; simpl;
    try discriminate; try (destruct sx; discriminate); try (destruct sy; discriminate).
  - intros _. right. eauto.
  - destruct sx, sy; try discriminate; intros _; left; split; reflexivity.
  - destruct sx, sy; try discriminate;
      (destruct (Z.compare_spec ex ey) as [-> | ? | ?]; try discriminate);
      rewrite Pos.compare_cont_spec; unfold Pos.switch_Eq;
      (destruct (Pos.compare_spec mx my) as [-> | ? | ?]; try discriminate);
      intros _; left; split; reflexivity.
Qed.

Lemma js_strict_eq_refl (x : JsNumber) :
  Number_isNaN x = false -> js_strict_eq x x = true.
Proof.
  unfold js_strict_eq, SFeqb.
  destruct x as [sx | sx | | sx mx ex]; simpl; try discriminate; intros _.
  - reflexivity.
  - destruct sx; reflexivity.
  - rewrite Z.compare_refl.
    replace (Pos.compare_cont Eq mx mx) with Eq
      by (rewrite Pos.compare_cont_spec, Pos.compare_refl; reflexivity).
    destruct sx; reflexivity.
Qed.

Lemma js_strict_eq_sym (x y : JsNumber) :
  js_strict_eq x y = true -> js_strict_eq y x = true.
Proof.
  intros [[<- Hnan] | (s & s' & -> & ->)]%js_strict_eq_true.
  - by apply js_strict_eq_refl.
  - reflexivity.
Qed.

Lemma js_strict_eq_trans (x y z : JsNumber) :
  js_strict_eq x y = true -> js_strict_eq y z = true -> js_strict_eq x z = true.
Proof.
  intros [[<- Hnan] | (s & s' & -> & ->)]%js_strict_eq_true Hyz; [assumption |].
  apply js_strict_eq_true in Hyz as [[<- _] | (? & ? & _ & ->)]; reflexivity.
Qed.

(** A truthy number strictly equal to another is that number. *)
Lemma js_strict_eq_truthy (x y : JsNumber) :
  js_strict_eq x y = true -> number_falsy x = false -> x = y.
Proof.
  intros [[<- _] | (s & s' & -> & ->)]%js_strict_eq_true; [reflexivity | discriminate].
Qed.

(* ===================================================================== *)
(** * 23. Commander options *)
(* ===================================================================== *)

Lemma findIndex_lower {A : Type} (p : A -> bool) (arr : list A) : -1 <= findIndex p arr.
Proof.
  induction arr as [| x rest IH]; simpl; [lia |].
  destruct (p x); [lia |]. destruct (Z.eqb_spec (findIndex p rest) (-1)); lia.
Qed.

(** [findIndex] returns the index of the first element that satisfies the
    test. *)
Lemma findIndex_first {A : Type} (p : A -> bool) (arr : list A) (k : nat) (y : A) :
  arr !! k = Some y -> p y = true ->
  (forall j z, (j < k)%nat -> arr !! j = Some z -> p z = false) ->
  findIndex p arr = Z.of_nat k.
Proof.
  revert k. induction arr as [| x rest IH]; intros k Hk Hy Hfirst; [discriminate |].
  destruct k as [| k]; simpl in *.
  - injection Hk as ->. by rewrite Hy.
  - rewrite (Hfirst 0%nat x) by (lia || reflexivity).
    rewrite (IH k Hk Hy).
    + destruct (Z.eqb_spec (Z.of_nat k) (-1)); lia.
    + intros j z Hj Hz. apply (Hfirst (S j) z); [lia | exact Hz].
Qed.

Lemma first_match {A : Type} (p : A -> bool) (arr : list A) (y : A) :
  y ∈ arr -> p y = true ->
  exists k z, arr !! k = Some z /\ p z = true /\
              forall j w, (j < k)%nat -> arr !! j = Some w -> p w = false.
Proof.
  induction arr as [| x rest IH]; intros Hin Hy; [inversion Hin |].
  destruct (p x) eqn:Hx.
  - exists 0%nat, x. repeat split; auto. intros j w Hj. lia.
  - apply elem_of_cons in Hin as [-> | Hin]; [congruence |].
    destruct (IH Hin Hy) as (k & z & Hk & Hz & Hfirst).
    exists (S k), z. repeat split; auto.
    intros [| j] w Hj Hw; simpl in Hw.
    + by injection Hw as <-.
    + apply (Hfirst j w); [lia | exact Hw].
Qed.

Lemma filter_indexed_keeps {A : Type} (keep : A -> Z -> bool) (arr : list A)
    (index : Z) (k : nat) (c : A) :
  arr !! k = Some c -> keep c (index + Z.of_nat k) = true ->
  c ∈ filter_indexed keep index arr.
Proof.
  revert index k. induction arr as [| x rest IH]; intros index k Hk Hkeep; [discriminate |].
  destruct k as [| k]; simpl in *.
  - injection Hk as ->. rewrite Z.add_0_r in Hkeep. rewrite Hkeep. apply list_elem_of_here.
  - assert (Hin : c ∈ filter_indexed keep (index + 1) rest).
    { apply (IH (index + 1) k Hk). by replace (index + 1 + Z.of_nat k)
        with (index + Z.pos (Pos.of_succ_nat k)) by lia. }
    destruct (keep x index); [by apply list_elem_of_further | assumption].
Qed.

Lemma filter_indexed_from {A : Type} (keep : A -> Z -> bool) (arr : list A)
    (index : Z) (c : A) :
  c ∈ filter_indexed keep index arr -> c ∈ arr.
Proof.
  revert index. induction arr as [| x rest IH]; intros index Hin; simpl in *;
    [inversion Hin |].
  destruct (keep x index).
  - apply elem_of_cons in Hin as [-> | Hin];
      [apply list_elem_of_here | apply list_elem_of_further; eauto].
  - apply list_elem_of_further; eauto.
Qed.

Lemma push_unless_present_grows acc entry :
  exists extra, push_unless_present acc entry = (acc ++ extra)%list.
Proof.
  unfold push_unless_present. destruct (existsb _ acc); [exists [] | exists [entry]];
    by rewrite ?app_nil_r.
Qed.

Lemma reduce_grows (merged : list CommanderOption.t) acc :
  exists extra, foldl push_unless_present acc merged = (acc ++ extra)%list.
Proof.
  revert acc. induction merged as [| e merged IH]; intros acc; simpl.
  - exists []. by rewrite app_nil_r.
  - destruct (push_unless_present_grows acc e) as (x1 & ->).
    destruct (IH (acc ++ x1)%list) as (x2 & ->).
    exists (x1 ++ x2)%list. by rewrite app_assoc.
Qed.

Lemma reduce_from (merged : list CommanderOption.t) acc o :
  o ∈ foldl push_unless_present acc merged -> o ∈ acc \/ o ∈ merged.
Proof.
  revert acc. induction merged as [| e merged IH]; intros acc Hin; simpl in *; [by left |].
  apply IH in Hin as [Hin | Hin]; [| right; by apply list_elem_of_further].
  unfold push_unless_present in Hin. destruct (existsb _ acc); [by left |].
  apply elem_of_app in Hin as [Hin | Hin]; [by left |].
  apply list_elem_of_singleton in Hin as ->. right. apply list_elem_of_here.
Qed.

(** No two entries of the accumulator, the earlier against the later, have
    strictly equal ids. *)
Lemma reduce_distinct (merged : list CommanderOption.t) acc :
  (forall i j a b, (i < j)%nat -> acc !! i = Some a -> acc !! j = Some b ->
                   js_strict_eq (CommanderOption.id a) (CommanderOption.id b) = false) ->
  forall i j a b, (i < j)%nat ->
    foldl push_unless_present acc merged !! i = Some a ->
    foldl push_unless_present acc merged !! j = Some b ->
    js_strict_eq (CommanderOption.id a) (CommanderOption.id b) = false.
Proof.
  revert acc. induction merged as [| e merged IH]; intros acc Hacc; simpl; [exact Hacc |].
  apply IH. unfold push_unless_present.
  destruct (existsb _ acc) eqn:Hpresent; [exact Hacc |].
  intros i j a b Hij Ha Hb.
  destruct (decide (j < length acc)%nat) as [Hj | Hj].
  - rewrite lookup_app_l in Ha, Hb by lia. eauto.
  - rewrite lookup_app_r in Hb by lia.
    destruct (j - length acc)%nat eqn:Hd; [| by destruct n].
    injection Hb as <-.
    rewrite lookup_app_l in Ha by lia.
    destruct (js_strict_eq (CommanderOption.id a) (CommanderOption.id e)) eqn:Heq;
      [| reflexivity].
    enough (existsb (fun existing => js_strict_eq (CommanderOption.id existing)
                                                  (CommanderOption.id e)) acc = true)
      by congruence.
    apply existsb_exists. exists a. split; [| exact Heq].
    apply list_elem_of_In, list_elem_of_lookup. eauto.
Qed.

Lemma reduce_keeps (merged : list CommanderOption.t) acc o :
  o ∈ acc -> o ∈ foldl push_unless_present acc merged.
Proof.
  intros Hin. destruct (reduce_grows merged acc) as (extra & ->).
  apply elem_of_app. by left.
Qed.

Lemma reduce_covers (merged : list CommanderOption.t) acc e :
  e ∈ merged -> Number_isNaN (CommanderOption.id e) = false ->
  exists o, o ∈ foldl push_unless_present acc merged /\
            js_strict_eq (CommanderOption.id o) (CommanderOption.id e) = true.
Proof.
  revert acc. induction merged as [| x merged IH]; intros acc Hin Hnan; [inversion Hin |].
  simpl. apply elem_of_cons in Hin as [<- | Hin]; [| by apply IH].
  unfold push_unless_present.
  destruct (existsb _ acc) eqn:Hpresent.
  - apply existsb_exists in Hpresent as (o & Ho & Heq).
    exists o. split; [| exact Heq]. apply reduce_keeps. by apply list_elem_of_In.
  - exists e. split; [| by apply js_strict_eq_refl].
    apply reduce_keeps, elem_of_app. right. apply list_elem_of_here.
Qed.

Lemma reduce_pushed (merged : list CommanderOption.t) acc o :
  o ∈ foldl push_unless_present acc merged ->
  o ∈ acc \/
  (o ∈ merged /\
   forall a, a ∈ acc ->
             js_strict_eq (CommanderOption.id a) (CommanderOption.id o) = false).
Proof.
  revert acc. induction merged as [| e merged IH]; intros acc Hin; simpl in *; [by left |].
  apply IH in Hin as [Hin | [Hin Hnone]].
  - unfold push_unless_present in Hin.
    destruct (existsb _ acc) eqn:Hpresent; [by left |].
    apply elem_of_app in Hin as [Hin | Hin]; [by left |].
    apply list_elem_of_singleton in Hin as ->. right.
    split; [apply list_elem_of_here |].
    intros a Ha.
    destruct (js_strict_eq (CommanderOption.id a) (CommanderOption.id e)) eqn:Heq;
      [| reflexivity].
    enough (existsb (fun existing => js_strict_eq (CommanderOption.id existing)
                                                  (CommanderOption.id e)) acc = true)
      by congruence.
    apply existsb_exists. exists a. split; [by apply list_elem_of_In | exact Heq].
  - right. split; [by apply list_elem_of_further |].
    intros a Ha. apply Hnone.
    destruct (push_unless_present_grows acc e) as (extra & ->).
    apply elem_of_app. by left.
Qed.

Lemma js_strict_eq_not_NaN (x y : JsNumber) :
  js_strict_eq x y = true -> Number_isNaN x = false /\ Number_isNaN y = false.
Proof.
  intros [[<- Hnan] | (s & s' & -> & ->)]%js_strict_eq_true; split; auto.
Qed.

Section CommanderFacts.

Variable Number_toString : JsNumber -> string.

(** Every army whose commander id is a number has an option among the army
    commanders. *)
Lemma armyCommanders_covers (armies : list ArmySummary.t) army :
  army ∈ armies ->
  Number_isNaN (ArmySummary.commander_id army) = false ->
  exists c, c ∈ armyCommanders Number_toString armies /\
            js_strict_eq (CommanderOption.id c) (ArmySummary.commander_id army) = true.
Proof.
  intros Hin Hnan. unfold armyCommanders.
  set (arr := map _ armies).
  set (p := fun row => js_strict_eq (CommanderOption.id row) (ArmySummary.commander_id army)).
  assert (exists y, y ∈ arr /\ p y = true) as (y & Hy & Hpy).
  { eexists. split; [apply list_elem_of_fmap_2; exact Hin |].
    unfold p. cbn [CommanderOption.id]. by apply js_strict_eq_refl. }
  destruct (first_match p arr y Hy Hpy) as (k & z & Hk & Hz & Hfirst).
  exists z. split; [| exact Hz].
  apply (filter_indexed_keeps _ arr 0 k z Hk).
  apply Z.eqb_eq. rewrite Z.add_0_l.
  apply (findIndex_first _ arr k z Hk).
  - apply js_strict_eq_refl. by apply js_strict_eq_not_NaN in Hz as [? _].
  - intros j w Hj Hw.
    destruct (js_strict_eq (CommanderOption.id w) (CommanderOption.id z)) eqn:Heq;
      [| reflexivity].
    rewrite <- (Hfirst j w Hj Hw). unfold p. symmetry.
    eapply js_strict_eq_trans; eassumption.
Qed.

(** X1.  The commander select never lists an id twice: no two of its options,
    an earlier against a later, have strictly equal ids; and every option is
    one built from the commanders record or from an army. *)
Theorem commanderOptions_distinct (commanders : list (string * CommanderBrief.t))
    (armies : list ArmySummary.t) :
  (forall i j a b,
      (i < j)%nat ->
      commanderOptions Number_toString commanders armies !! i = Some a ->
      commanderOptions Number_toString commanders armies !! j = Some b ->
      js_strict_eq (CommanderOption.id a) (CommanderOption.id b) = false) /\
  (forall o,
      o ∈ commanderOptions Number_toString commanders armies ->
      o ∈ commander_pairs commanders \/ o ∈ armyCommanders Number_toString armies).
Proof.
  split.
  - apply reduce_distinct. intros i j a b _ Ha. discriminate.
  - intros o [Hin | Hin]%reduce_from; [inversion Hin |].
    by apply elem_of_app in Hin.
Qed.

(** X2.  The commander select misses no commander: every key of the commanders
    record that converts to a number, and the commander id of every army when
    it is a number (not NaN), is the id of one of the options. *)
Theorem commanderOptions_covers (commanders : list (string * CommanderBrief.t))
    (armies : list ArmySummary.t) :
  (forall key brief,
      (key, brief) ∈ commanders ->
      Number_isNaN (StringToNumber key) = false ->
      exists o, o ∈ commanderOptions Number_toString commanders armies /\
                js_strict_eq (CommanderOption.id o) (StringToNumber key) = true) /\
  (forall army,
      army ∈ armies ->
      Number_isNaN (ArmySummary.commander_id army) = false ->
      exists o, o ∈ commanderOptions Number_toString commanders armies /\
                js_strict_eq (CommanderOption.id o) (ArmySummary.commander_id army) = true).
Proof.
  split.
  - intros key brief Hin Hnan. unfold commanderOptions.
    set (e := {| CommanderOption.id := StringToNumber key;
                 CommanderOption.label :=
                   if negb (is_empty (CommanderBrief.name brief))
                   then CommanderBrief.name brief else "Commander " ++ key |}).
    apply (reduce_covers _ [] e); [| exact Hnan].
    apply elem_of_app. left. unfold commander_pairs.
    change e with ((fun entry : string * CommanderBrief.t =>
      {| CommanderOption.id := StringToNumber entry.1;
         CommanderOption.label :=
           if negb (is_empty (CommanderBrief.name entry.2))
           then CommanderBrief.name entry.2 else "Commander " ++ entry.1 |}) (key, brief)).
    by apply list_elem_of_fmap_2.
  - intros army Hin Hnan.
    destruct (armyCommanders_covers armies army Hin Hnan) as (c & Hc & Heq).
    destruct (reduce_covers (commander_pairs commanders
                             ++ armyCommanders Number_toString armies)%list [] c)
      as (o & Ho & Hoc).
    + apply elem_of_app. by right.
    + by apply js_strict_eq_not_NaN in Heq as [? _].
    + exists o. split; [exact Ho |]. eapply js_strict_eq_trans; eassumption.
Qed.

(** X3.  A commander known to the commanders record is listed under the
    record's entry: an option whose id strictly equals the id of an entry
    built from the record is itself built from the record, never from an
    army. *)
Theorem commanderOptions_record_first (commanders : list (string * CommanderBrief.t))
    (armies : list ArmySummary.t) (o p : CommanderOption.t) :
  o ∈ commanderOptions Number_toString commanders armies ->
  p ∈ commander_pairs commanders ->
  js_strict_eq (CommanderOption.id p) (CommanderOption.id o) = true ->
  o ∈ commander_pairs commanders.
Proof.
  unfold commanderOptions. rewrite foldl_app.
  intros [Hin | [_ Hnone]]%reduce_pushed Hp Heq.
  - apply reduce_from in Hin as [Hin | Hin]; [inversion Hin | exact Hin].
  - exfalso.
    destruct (reduce_covers (commander_pairs commanders) [] p Hp) as (o' & Ho' & Heq').
    { by apply js_strict_eq_not_NaN in Heq as [? _]. }
    pose proof (js_strict_eq_trans _ _ _ Heq' Heq) as Htrans.
    rewrite (Hnone o' Ho') in Htrans. discriminate.
Qed.

End CommanderFacts.

(* ===================================================================== *)
(** * 24. The selected army and its commander *)
(* ===================================================================== *)

Lemma selectedArmy_found (armies : list ArmySummary.t) selected army :
  selectedArmy armies selected = Some army ->
  army ∈ armies /\ same_army_id (ArmySummary.id army) selected = true.
Proof.
  unfold selectedArmy. intros [Hin Heq]%find_some.
  split; [by apply list_elem_of_In | exact Heq].
Qed.

Lemma selectedArmy_none (armies : list ArmySummary.t) : selectedArmy armies None = None.
Proof.
  unfold selectedArmy. induction armies as [| a armies IH]; simpl; [reflexivity |].
  destruct (ArmySummary.id a); exact IH.
Qed.

Lemma commanderEffect_selected (armies : list ArmySummary.t)
    (options : list CommanderOption.t) (s : BuilderState) army :
  selectedArmy armies (selectedArmyId s) = Some army ->
  id_falsy (commanderId (commanderEffect armies options s)) = false ->
  commanderId (commanderEffect armies options s) = Some (ArmySummary.commander_id army) /\
  selectedArmyId (commanderEffect armies options s) = selectedArmyId s.
Proof.
  intros Hsel. unfold commanderEffect. rewrite Hsel.
  destruct (commanderId s) as [c |] eqn:Hc; cbn [id_falsy same_army_id orb].
  - destruct (number_falsy c) eqn:Hfalsy; cbn [orb]; [by split |].
    destruct (js_strict_eq c (ArmySummary.commander_id army)) eqn:Heq; cbn [negb];
      [| by split].
    rewrite Hc. intros _. split; [| reflexivity].
    by rewrite (js_strict_eq_truthy _ _ Heq Hfalsy).
  - by split.
Qed.

(** X4.  An order posted for a selected army, once the commander effect has
    run, is issued by that army's commander: the payload's commander_id is the
    army's commander_id and its army_id strictly equals the army's id. *)
Theorem selected_army_commands (parse : JsValue -> option JsValue)
    (armies : list ArmySummary.t) (options : list CommanderOption.t)
    (s : BuilderState) (army : ArmySummary.t) (payload : OrderCreateRequest.t) :
  selectedArmy armies (selectedArmyId s) = Some army ->
  handleSubmit parse (commanderEffect armies options s) = Mutate payload ->
  OrderCreateRequest.commander_id payload = Some (ArmySummary.commander_id army) /\
  same_army_id (ArmySummary.id army) (OrderCreateRequest.army_id payload) = true.
Proof.
  intros Hsel (d & _ & _ & Hcmd & _ & _ & -> & ->)%handleSubmit_posted.
  pose proof (selectedArmy_found _ _ _ Hsel) as [_ Hid].
  destruct (commanderEffect_selected armies options s army Hsel Hcmd) as [-> ->].
  split; [reflexivity | exact Hid].
Qed.

(** X5.  The commander effect settles in one pass: run again on its own
    result, with the same armies and options, it changes nothing. *)
Theorem commanderEffect_settles (armies : list ArmySummary.t)
    (options : list CommanderOption.t) (s : BuilderState) :
  commanderEffect armies options (commanderEffect armies options s)
  = commanderEffect armies options s.
Proof.
  unfold commanderEffect.
  destruct (selectedArmy armies (selectedArmyId s)) as [army |] eqn:Hsel.
  - destruct (id_falsy (commanderId s)
              || negb (same_army_id (commanderId s) (Some (ArmySummary.commander_id army))))
      eqn:Hcond.
    + cbn [with_commanderId selectedArmyId commanderId]. rewrite Hsel.
      match goal with |- (if ?c then _ else _) = _ => destruct c end; reflexivity.
    + by rewrite Hsel, Hcond.
  - destruct options as [| first rest]; [by rewrite Hsel |].
    destruct (id_falsy (commanderId s)) eqn:Hfalsy.
    + cbn [with_commanderId selectedArmyId commanderId]. rewrite Hsel.
      match goal with |- (if ?c then _ else _) = _ => destruct c end; reflexivity.
    + by rewrite Hsel, Hfalsy.
Qed.

(** X6.  A click on the card of an army that is not the selected one, the
    army's id being a number, makes the order builder act for an army with
    that id; a second click on the same card clears the selection, and with
    no selection the builder has no army. *)
Theorem armyCardClick_toggles (armies : list ArmySummary.t) (army : ArmySummary.t)
    (n : JsNumber) (selected : option JsNumber) :
  army ∈ armies ->
  ArmySummary.id army = Some n ->
  Number_isNaN n = false ->
  same_army_id (Some n) selected = false ->
  (exists found,
      selectedArmy armies (armyCardClick army selected) = Some found /\
      same_army_id (ArmySummary.id found) (Some n) = true) /\
  armyCardClick army (armyCardClick army selected) = None /\
  selectedArmy armies (armyCardClick army (armyCardClick army selected)) = None.
Proof.
  intros Hin Hid Hnan Hother.
  assert (Hclick : armyCardClick army selected = Some n).
  { unfold armyCardClick. by rewrite Hid, Hother. }
  assert (Hagain : armyCardClick army (Some n) = None).
  { unfold armyCardClick. rewrite Hid. cbn [same_army_id].
    by rewrite js_strict_eq_refl. }
  rewrite Hclick, Hagain, selectedArmy_none. split; [| split; reflexivity].
  unfold selectedArmy.
  destruct (find _ armies) as [found |] eqn:Hfind.
  - exists found. split; [reflexivity |]. by apply find_some in Hfind as [_ ?].
  - exfalso.
    pose proof (find_none _ _ Hfind army ltac:(by apply list_elem_of_In)) as Hnot.
    cbv beta in Hnot. rewrite Hid in Hnot. cbn [same_army_id] in Hnot.
    rewrite js_strict_eq_refl in Hnot by assumption. discriminate.
Qed.

(* ===================================================================== *)
(** * 25. More invariants of the form *)
(* ===================================================================== *)

Lemma removeLeg_length (index : nat) (rows : list MovementLegForm) :
  (2 <= length rows)%nat -> (1 <= length (removeLeg index rows))%nat.
Proof.
  unfold removeLeg. revert index.
  induction rows as [| row rows IH]; intros index Hlen; simpl in *; [lia |].
  destruct index as [| index]; simpl; lia.
Qed.

Lemma table_texts_start_on_text :
  forallb (fun definition => forallb text_starts_on_text (fields definition))
          (map snd ORDER_DEFINITIONS) = true.
Proof. vm_compute. reflexivity. Qed.

Lemma text_reset_is_text key definition field :
  lookup_definition ORDER_DEFINITIONS key = Some definition ->
  field ∈ fields definition ->
  is_text_input (type field) = true ->
  exists text, reset_value field = VStr text.
Proof.
  intros Hd%lookup_definition_elem Hin Ht.
  pose proof table_texts_start_on_text as Hall. rewrite forallb_forall in Hall.
  specialize (Hall definition). rewrite forallb_forall in Hall.
  assert (Hstart : text_starts_on_text field = true).
  { apply Hall; [| by apply list_elem_of_In].
    apply in_map_iff. exists (key, definition). split; [reflexivity | by apply list_elem_of_In]. }
  unfold text_starts_on_text in Hstart. rewrite Ht in Hstart.
  destruct (reset_value field); try discriminate. eauto.
Qed.

Lemma run_reset_texts (s : BuilderState) :
  is_Some (current_definition s) -> texts_hold_text (run_reset s).
Proof.
  intros [d Hd]. unfold run_reset. rewrite Hd.
  exists d. split; [exact Hd |].
  intros field Hin Ht.
  destruct (text_reset_is_text _ _ _ Hd Hin Ht) as (text & Hreset).
  exists text. cbn [resetFields fieldState]. rewrite <- Hreset.
  apply reset_lookup; [| assumption].
  eapply definition_names_NoDup, Hd.
Qed.

Lemma texts_hold_text_frame (s s' : BuilderState) :
  orderType s' = orderType s -> fieldState s' = fieldState s ->
  texts_hold_text s -> texts_hold_text s'.
Proof.
  intros Ht Hf (d & Hd & Htext). exists d. unfold current_definition in *.
  rewrite Ht, Hf. auto.
Qed.

Section FormInvariants.

Variable JSON_parse_String : JsValue -> option JsValue.

Lemma step_texts (s s' : BuilderState) :
  step JSON_parse_String s s' -> texts_hold_text s -> texts_hold_text s'.
Proof.
  intros Hstep Hinv.
  destruct Hstep as
    [ s value Hvalue | s d g value Hd Hg Hreport | | | | | | | | | | | ];
    try (by eapply texts_hold_text_frame; [| | exact Hinv]).
  - unfold setOrderType. destruct (String.eqb value (orderType s)); [assumption |].
    apply run_reset_texts. unfold current_definition. cbn [with_orderType orderType].
    by apply lookup_definition_is_Some.
  - destruct Hinv as (d' & Hd' & Htext). rewrite Hd in Hd'. injection Hd' as <-.
    exists d. split; [exact Hd |]. intros f Hf Ht. cbn [updateField fieldState].
    destruct (decide (name g = name f)) as [Heq | Hne].
    + assert (g = f) as ->.
      { eapply same_name_same_field; eauto. eapply definition_names_NoDup, Hd. }
      unfold control_reports in Hreport.
      destruct (type f); try discriminate;
        destruct value as [| | | | text | |]; try discriminate;
        exists text; apply lookup_insert_eq.
    + rewrite lookup_insert_ne by assumption. by apply Htext.
  - apply run_reset_texts. destruct Hinv as (d & Hd & _). by exists d.
Qed.

Lemma reachable_texts (s : BuilderState) :
  reachable JSON_parse_String s -> texts_hold_text s.
Proof.
  induction 1 as [| s s' _ IH Hstep].
  - apply run_reset_texts. by eexists.
  - eapply step_texts; eassumption.
Qed.

Lemma run_reset_legs (s : BuilderState) :
  (1 <= length (legs s))%nat -> (1 <= length (legs (run_reset s)))%nat.
Proof.
  unfold run_reset. destruct (current_definition s) as [d |]; [| auto].
  cbn [resetFields legs]. destruct (has_movement_legs d); simpl; auto.
Qed.

Lemma current_definition_run_reset (s : BuilderState) :
  current_definition (run_reset s) = current_definition s.
Proof. unfold run_reset. by destruct (current_definition s) eqn:Hd. Qed.

Lemma run_reset_executePart (s : BuilderState) :
  executePart (run_reset s) = executePart s.
Proof. unfold run_reset. by destruct (current_definition s). Qed.

(** X7.  The leg table is never empty: in every state the form can reach
    there is at least one leg row, so Remove Leg cannot take the last one
    away. *)
Theorem reachable_legs_nonempty (s : BuilderState) :
  reachable JSON_parse_String s -> (1 <= length (legs s))%nat.
Proof.
  induction 1 as [| s s' _ IH Hstep].
  - apply run_reset_legs. simpl. lia.
  - destruct Hstep; cbn [with_legs with_error legs updateField]; try exact IH.
    + unfold setOrderType. destruct (String.eqb value (orderType s)); [exact IH |].
      by apply run_reset_legs.
    + unfold addLeg. rewrite length_app. simpl. lia.
    + apply removeLeg_length. lia.
    + unfold updateLeg. by rewrite length_alter.
    + unfold onSuccess. by apply run_reset_legs.
Qed.

Lemma reachable_executePart (s : BuilderState) :
  reachable JSON_parse_String s -> executePart s ∈ map fst DAY_PART_OPTIONS.
Proof.
  induction 1 as [| s s' _ IH Hstep].
  - unfold mounted. rewrite run_reset_executePart. apply list_elem_of_here.
  - destruct Hstep; cbn [with_legs with_error executePart updateField]; try exact IH.
    + unfold setOrderType. destruct (String.eqb value (orderType s)); [exact IH |].
      by rewrite run_reset_executePart.
    + assumption.
    + unfold onSuccess. rewrite run_reset_executePart. apply list_elem_of_here.
Qed.

End FormInvariants.

(* ===================================================================== *)
(** * 26. More about posted requests *)
(* ===================================================================== *)

Section MorePosted.

Variable JSON_parse_String : JsValue -> option JsValue.

(** The schedule and the priority of a posted request. *)
Lemma handleSubmit_posted_schedule (s : BuilderState) (payload : OrderCreateRequest.t) :
  handleSubmit JSON_parse_String s = Mutate payload ->
  OrderCreateRequest.execute_day payload
    = (if is_empty (trim (executeDay s)) then None
       else Some (StringToNumber (executeDay s))) /\
  (is_empty (trim (executeDay s)) = false ->
   Number_isNaN (StringToNumber (executeDay s)) = false) /\
  OrderCreateRequest.execute_part payload
    = (if is_empty (executePart s) then None else Some (executePart s)) /\
  OrderCreateRequest.priority payload = priority s.
Proof.
  unfold handleSubmit.
  destruct (lookup_definition ORDER_DEFINITIONS (orderType s)) as [d |].
  2: { destruct (existsb _ _); [destruct (id_falsy _) |]; discriminate. }
  destruct (requiresArmy d && id_falsy (selectedArmyId s)); [discriminate |].
  destruct (id_falsy (commanderId s)); [discriminate |].
  destruct (collect_parameters _ _ _ _ _ _) as [m | ps]; [discriminate |].
  destruct (is_empty (trim (executeDay s))) eqn:Hday; cbn [negb].
  - intros [= <-]. cbn. destruct (is_empty (executePart s)); repeat split; auto;
      discriminate.
  - destruct (Number_isNaN (StringToNumber (executeDay s))) eqn:Hnan; [discriminate |].
    intros [= <-]. cbn. destruct (is_empty (executePart s)); repeat split; auto.
Qed.

(** The field types that assign an entry whenever they do not refuse. *)
Lemma always_contributes (s : BuilderState) field contribution :
  type field = ft_checkbox \/ type field = ft_list \/ type field = ft_json \/
  type field = ft_movement_legs ->
  field_value JSON_parse_String (orderType s) (fieldState s) (legs s) field
    = inr contribution ->
  is_Some contribution.
Proof.
  unfold field_value, field_step.
  intros [-> | [-> | [-> | ->]]];
    repeat match goal with
           | |- context [if ?b then _ else _] => destruct b
           | |- context [match JSON_parse_String ?v with _ => _ end] =>
               destruct (JSON_parse_String v)
           | |- context [match listValueType ?f with _ => _ end] =>
               destruct (listValueType f) as [[|] |]
           end;
    rewrite ?lookup_insert_eq; intros [= <-]; eauto.
Qed.

(** X8.  The parameters of a posted request hold nothing but fields of the
    order type's definition, so no value of a previously chosen order type
    leaks into a request; and every checkbox, list, JSON and leg-table field
    of the definition has its entry. *)
Theorem posted_parameters_keys (s : BuilderState) (payload : OrderCreateRequest.t) :
  handleSubmit JSON_parse_String s = Mutate payload ->
  exists definition,
    lookup_definition ORDER_DEFINITIONS (OrderCreateRequest.order_type payload)
      = Some definition /\
    (forall key,
        is_Some (OrderCreateRequest.parameters payload !! key) ->
        key ∈ map name (fields definition)) /\
    (forall field,
        field ∈ fields definition ->
        type field = ft_checkbox \/ type field = ft_list \/ type field = ft_json \/
        type field = ft_movement_legs ->
        is_Some (OrderCreateRequest.parameters payload !! name field)).
Proof.
  intros Hpost.
  pose proof Hpost as (d & Hd & _ & _ & Hrun & -> & _)%handleSubmit_posted.
  exists d. split; [exact Hd |]. split.
  - intros key [v Hv].
    destruct (decide (key ∈ map name (fields d))) as [Hin | Hout]; [exact Hin |].
    rewrite (collect_other_key _ _ _ _ _ _ _ _ Hrun Hout), lookup_empty in Hv.
    discriminate.
  - intros field Hin Ht.
    pose proof (posted_parameter _ _ _ _ _ Hpost Hd Hin) as Hc.
    exact (always_contributes s field _ Ht Hc).
Qed.

(** X9.  A field of type select, text or textarea that is marked required is
    enforced: every request the form can post carries, under the field's
    name, a text that is not blank. *)
Theorem required_text_posted (payload : OrderCreateRequest.t) definition field :
  posts JSON_parse_String payload ->
  lookup_definition ORDER_DEFINITIONS (OrderCreateRequest.order_type payload)
    = Some definition ->
  field ∈ fields definition ->
  required field = Some true ->
  type field = ft_select \/ type field = ft_text \/ type field = ft_textarea ->
  exists text,
    OrderCreateRequest.parameters payload !! name field = Some (VStr text) /\
    is_empty (trim text) = false.
Proof.
  intros (s & Hreach & Hpost) Hdef Hin Hreq Ht.
  pose proof Hpost as (d & Hd & _ & _ & _ & Htype & _)%handleSubmit_posted.
  rewrite Htype in Hdef. unfold current_definition in Hd. rewrite Hd in Hdef.
  injection Hdef as ->.
  assert (exists text, fieldState s !! name field = Some (VStr text)) as (text & Hstate).
  { destruct Ht as [Ht | Ht].
    - destruct (reachable_selects _ _ Hreach) as (d' & Hd' & Hsel).
      unfold current_definition in Hd'. rewrite Hd in Hd'. injection Hd' as <-.
      destruct (Hsel field Hin Ht) as (chosen & Hstate & _). eauto.
    - destruct (reachable_texts _ _ Hreach) as (d' & Hd' & Htext).
      unfold current_definition in Hd'. rewrite Hd in Hd'. injection Hd' as <-.
      apply Htext; [exact Hin |]. by destruct Ht as [-> | ->]. }
  pose proof (posted_parameter _ _ _ _ _ Hpost Hd Hin) as Hc.
  rewrite choice_contribution in Hc by exact Ht. cbv zeta in Hc.
  unfold get_prop in Hc. rewrite Hstate, Hreq in Hc. cbn [from_option id] in Hc.
  destruct (is_empty (trim text)) eqn:Hblank; [discriminate |].
  exists text. split; [| exact Hblank].
  destruct text; [discriminate |].
  cbn [andb is_undefined is_empty_string orb] in Hc. by injection Hc.
Qed.

(** X10.  The schedule of a request the form posts: execute_day is null or a
    number that is not NaN, and execute_part is null or one of morning,
    midday, evening and night. *)
Theorem posted_schedule (payload : OrderCreateRequest.t) :
  posts JSON_parse_String payload ->
  (OrderCreateRequest.execute_day payload = None \/
   exists day, OrderCreateRequest.execute_day payload = Some day /\
               Number_isNaN day = false) /\
  OrderCreateRequest.execute_part payload
    ∈ [None; Some "morning"; Some "midday"; Some "evening"; Some "night"].
Proof.
  intros (s & Hreach & (Hday & Hnan & Hpart & _)%handleSubmit_posted_schedule).
  split.
  - rewrite Hday. destruct (is_empty (trim (executeDay s))); [by left |].
    right. eauto.
  - rewrite Hpart. pose proof (reachable_executePart _ _ Hreach) as Hin.
    cbn [map fst DAY_PART_OPTIONS] in Hin.
    repeat (apply elem_of_cons in Hin as [-> | Hin]; [cbn [is_empty]; in_literal |]).
    inversion Hin.
Qed.

(** X11.  After a successful creation the form starts over: a move order
    cannot be posted again until a leg is filled in, and whatever is posted
    next without further input has no execute day, no execute part and
    priority 0. *)
Theorem onSuccess_starts_over (s : BuilderState) (payload : OrderCreateRequest.t) :
  handleSubmit JSON_parse_String (onSuccess s) = Mutate payload ->
  OrderCreateRequest.order_type payload <> "move" /\
  OrderCreateRequest.execute_day payload = None /\
  OrderCreateRequest.execute_part payload = None /\
  OrderCreateRequest.priority payload = js_zero.
Proof.
  intros Hpost.
  pose proof Hpost as (d & Hd & _ & _ & _ & Htype & _)%handleSubmit_posted.
  pose proof Hpost as (Hday & _ & Hpart & Hprio)%handleSubmit_posted_schedule.
  assert (Hreset : onSuccess s
                   = resetFields d
                       {| orderType := orderType s; fieldState := fieldState s;
                          legs := legs s; commanderId := commanderId s;
                          executeDay := ""; executePart := ""; priority := js_zero;
                          error := error s; selectedArmyId := selectedArmyId s |}).
  { unfold onSuccess in *. rewrite current_definition_run_reset in Hd.
    unfold run_reset. by rewrite Hd. }
  rewrite Hreset in *. cbn [resetFields executeDay executePart priority orderType] in *.
  rewrite Htype. split; [| by repeat split].
  intros Hmove.
  apply move_posted_legs in Hpost as [_ Hlen]; [| exact Hmove].
  unfold current_definition in Hd. cbn [orderType] in Hd, Hmove.
  rewrite Hmove in Hd. change (Some def_move = Some d) in Hd. injection Hd as <-.
  cbn in Hlen. lia.
Qed.

(** X12.  Choosing another order type leaves nothing of the previous one: the
    field state is then exactly the new definition's fields at their initial
    values, every other key reads as missing, and the error is cleared. *)
Theorem setOrderType_resets (s : BuilderState) (value : string) definition :
  value <> orderType s ->
  lookup_definition ORDER_DEFINITIONS value = Some definition ->
  orderType (setOrderType value s) = value /\
  error (setOrderType value s) = None /\
  forall key,
    fieldState (setOrderType value s) !! key
    = reset_value <$> find_field definition key.
Proof.
  intros Hne Hd. unfold setOrderType.
  destruct (String.eqb_spec value (orderType s)) as [? | _]; [contradiction |].
  unfold run_reset, current_definition. cbn [with_orderType orderType]. rewrite Hd.
  split; [reflexivity |]. split; [reflexivity |].
  intros key. cbn [resetFields fieldState].
  pose proof (definition_names_NoDup _ _ Hd) as Hnd.
  destruct (find_field definition key) as [field |] eqn:Hfind; cbn [fmap option_fmap option_map].
  - apply find_field_elem in Hfind as [Hin <-]. by apply reset_lookup.
  - rewrite reset_other_key; [apply lookup_empty |].
    intros (field & -> & Hin)%list_elem_of_fmap.
    unfold find_field in Hfind.
    pose proof (find_none _ _ Hfind field ltac:(by apply list_elem_of_In)) as Hno.
    cbv beta in Hno. by rewrite String.eqb_refl in Hno.
Qed.

(** X13.  A number input that holds only white space is not treated as
    blank: the field is posted as 0 instead of being left out. *)
Theorem white_number_posted_as_zero (s : BuilderState) (payload : OrderCreateRequest.t)
    definition field (text : string) :
  handleSubmit JSON_parse_String s = Mutate payload ->
  current_definition s = Some definition ->
  field ∈ fields definition ->
  type field = ft_number ->
  fieldState s !! name field = Some (VStr text) ->
  text <> "" ->
  trim text = "" ->
  OrderCreateRequest.parameters payload !! name field = Some (VNum js_zero).
Proof.
  intros Hpost Hdef Hin Ht Hstate Hne Hblank.
  pose proof (posted_number _ _ _ _ _ Hpost Hdef Hin Ht) as Hnum. cbv zeta in Hnum.
  unfold get_prop in Hnum. rewrite Hstate in Hnum. cbn [from_option id] in Hnum.
  destruct text; [contradiction |]. cbn [is_blank] in Hnum.
  destruct Hnum as [-> _]. cbn [ToNumber]. unfold StringToNumber. by rewrite Hblank.
Qed.

End MorePosted.

(* ===================================================================== *)
(** * 27. The schedule form and the failure of a request *)
(* ===================================================================== *)

Lemma StringToNumber_blank (text : string) :
  is_empty (trim text) = true -> StringToNumber text = js_zero.
Proof. unfold StringToNumber. by destruct (trim text). Qed.

Lemma form_number_positive (entry : option string) :
  Number_isFinite (form_number entry) && js_ltb js_zero (form_number entry) = true ->
  exists text, entry = Some text /\ is_empty (trim text) = false.
Proof.
  destruct entry as [text |]; [| discriminate]. cbn [form_number].
  destruct (is_empty (trim text)) eqn:Hblank; [| eauto].
  by rewrite (StringToNumber_blank _ Hblank).
Qed.

(** X14.  The schedule form always yields an update, with [enabled] true
    exactly for a checked box; the interval and the multiplier are part of it
    only as finite numbers above zero, and an entry that is missing, blank or
    all white space is left out. *)
Theorem handleScheduleToggle_fields (enabled interval multiplier : option string) :
  let update := handleScheduleToggle enabled interval multiplier in
  (TickScheduleUpdate.enabled update = true <-> enabled = Some "on") /\
  (forall seconds,
      TickScheduleUpdate.interval_seconds update = Some seconds ->
      Number_isFinite seconds = true /\ js_ltb js_zero seconds = true /\
      exists text, interval = Some text /\ is_empty (trim text) = false /\
                   seconds = StringToNumber text) /\
  (forall factor,
      TickScheduleUpdate.debug_multiplier update = Some factor ->
      Number_isFinite factor = true /\ js_ltb js_zero factor = true /\
      exists text, multiplier = Some text /\ is_empty (trim text) = false /\
                   factor = StringToNumber text).
Proof.
  cbv zeta. unfold handleScheduleToggle. cbn. split; [| split].
  - destruct enabled as [text |]; [| split; discriminate].
    rewrite String.eqb_eq. split; [by intros -> | by intros [= ->]].
  - intros seconds.
    destruct (Number_isFinite (form_number interval)
              && js_ltb js_zero (form_number interval)) eqn:Hok; [| discriminate].
    intros [= <-]. pose proof Hok as [Hfin Hpos]%andb_prop.
    destruct (form_number_positive _ Hok) as (text & -> & Hblank).
    repeat split; auto. eauto.
  - intros factor.
    destruct (Number_isFinite (form_number multiplier)
              && js_ltb js_zero (form_number multiplier)) eqn:Hok; [| discriminate].
    intros [= <-]. pose proof Hok as [Hfin Hpos]%andb_prop.
    destruct (form_number_positive _ Hok) as (text & -> & Hblank).
    repeat split; auto. eauto.
Qed.

(** X15.  A request that the server answers with a failure status rejects
    with a message that is never empty, the body of the response when there is
    one; and the order builder, whose error handler stores that message, then
    shows it in its error paragraph. *)
Theorem failed_request_is_shown (Number_toString : JsNumber -> string)
    (Response_json : string -> JsValue + string)
    (response : Response.t) (s : BuilderState) :
  Response.ok response = false ->
  exists message,
    request Number_toString Response_json response = Rejects message /\
    message <> "" /\
    (Response.text response <> "" -> message = Response.text response) /\
    error_paragraph (onError message s) = Some message.
Proof.
  intros Hok. unfold request. rewrite Hok. cbn [negb].
  destruct (Response.text response) as [| c r] eqn:Htext; cbn [is_empty negb].
  - eexists. split; [reflexivity |]. repeat split; [discriminate | contradiction].
  - eexists. split; [reflexivity |]. repeat split; [discriminate].
Qed.

(* ===================================================================== *)
(** * 28. Rows of the leg table that are not filled in *)
(* ===================================================================== *)

Lemma preparedLegs_filled (rows : list MovementLegForm) :
  preparedLegs (List.filter leg_filled rows) = preparedLegs rows.
Proof.
  unfold preparedLegs. f_equal.
  induction rows as [| row rows IH]; simpl; [reflexivity |].
  destruct (leg_filled row) eqn:Hrow; simpl; rewrite ?Hrow, IH; reflexivity.
Qed.

Lemma field_step_legs parse orderType fieldState rows rows' field acc :
  preparedLegs rows = preparedLegs rows' ->
  field_step parse orderType fieldState rows field acc
  = field_step parse orderType fieldState rows' field acc.
Proof. intros Heq. unfold field_step. by rewrite Heq. Qed.

Lemma collect_parameters_legs parse orderType fieldState rows rows' l acc :
  preparedLegs rows = preparedLegs rows' ->
  collect_parameters parse orderType fieldState rows l acc
  = collect_parameters parse orderType fieldState rows' l acc.
Proof.
  intros Heq. revert acc. induction l as [| f l IH]; intros acc; simpl; [reflexivity |].
  rewrite (field_step_legs _ _ _ rows rows' _ _ Heq).
  destruct (field_step _ _ _ rows' f acc); [reflexivity | apply IH].
Qed.

(** X16.  Rows of the leg table that are not filled in count for nothing: the
    submission ends the same way when they are taken out, and so also when an
    empty row is added. *)
Theorem unfilled_rows_ignored (parse : JsValue -> option JsValue) (s : BuilderState) :
  handleSubmit parse (with_legs (List.filter leg_filled (legs s)) s) = handleSubmit parse s /\
  handleSubmit parse (with_legs (addLeg (legs s)) s) = handleSubmit parse s.
Proof.
  assert (Hsame : forall rows,
            preparedLegs rows = preparedLegs (legs s) ->
            handleSubmit parse (with_legs rows s) = handleSubmit parse s).
  { intros rows Heq. unfold handleSubmit. cbn [with_legs orderType selectedArmyId
      commanderId fieldState legs executeDay executePart priority].
    destruct (lookup_definition ORDER_DEFINITIONS (orderType s)) as [d |];
      [| reflexivity].
    by rewrite (collect_parameters_legs _ _ _ rows (legs s) _ _ Heq). }
  split; apply Hsame.
  - apply preparedLegs_filled.
  - unfold preparedLegs, addLeg. rewrite List.filter_app. simpl. by rewrite app_nil_r.
Qed.

(* ===================================================================== *)
(** * 29. Selects in posted requests *)
(* ===================================================================== *)

Lemma select_options_not_blank key definition field chosen :
  lookup_definition ORDER_DEFINITIONS key = Some definition ->
  field ∈ fields definition ->
  type field = ft_select ->
  chosen ∈ option_values field ->
  is_empty chosen = false.
Proof.
  intros Hwf%definition_well_formed Hin Ht Hchosen. unfold well_formed in Hwf.
  apply andb_prop in Hwf as [Hwf _]. apply andb_prop in Hwf as [_ Hsel].
  rewrite forallb_forall in Hsel.
  specialize (Hsel field ltac:(by apply list_elem_of_In)).
  unfold select_starts_on_option in Hsel. rewrite Ht in Hsel.
  apply andb_prop in Hsel as [_ Hall]. rewrite forallb_forall in Hall.
  specialize (Hall chosen ltac:(by apply list_elem_of_In)).
  by destruct (is_empty chosen).
Qed.

(** X17.  Every select of the order type's definition is part of a request
    the form posts, with the value of one of the options it lists. *)
Theorem posted_selects_on_options (parse : JsValue -> option JsValue)
    (payload : OrderCreateRequest.t) definition field :
  posts parse payload ->
  lookup_definition ORDER_DEFINITIONS (OrderCreateRequest.order_type payload)
    = Some definition ->
  field ∈ fields definition ->
  type field = ft_select ->
  exists chosen,
    OrderCreateRequest.parameters payload !! name field = Some (VStr chosen) /\
    chosen ∈ option_values field.
Proof.
  intros (s & Hreach & Hpost) Hdef Hin Ht.
  pose proof Hpost as (d & Hd & _ & _ & _ & Htype & _)%handleSubmit_posted.
  rewrite Htype in Hdef. unfold current_definition in Hd. rewrite Hd in Hdef.
  injection Hdef as ->.
  destruct (reachable_selects _ _ Hreach) as (d' & Hd' & Hsel).
  unfold current_definition in Hd'. rewrite Hd in Hd'. injection Hd' as <-.
  destruct (Hsel field Hin Ht) as (chosen & Hstate & Hchosen).
  pose proof (select_options_not_blank _ _ _ _ Hd Hin Ht Hchosen) as Hblank.
  pose proof (posted_parameter _ _ _ _ _ Hpost Hd Hin) as Hc.
  rewrite choice_contribution in Hc by (by left). cbv zeta in Hc.
  unfold get_prop in Hc. rewrite Hstate in Hc. cbn [from_option id] in Hc.
  destruct (_ && _); [discriminate |].
  exists chosen. split; [| exact Hchosen].
  destruct chosen; [discriminate |].
  cbn [is_undefined is_empty_string orb] in Hc. by injection Hc.
Qed.

(* ===================================================================== *)
(** * 30. More concrete runs *)
(* ===================================================================== *)

Example sample_commander_options :
  map (fun o => (CommanderOption.id o, CommanderOption.label o))
      (commanderOptions sample_toString sample_commanders sample_armies)
  = [ (js_of_Z 3, "Aelia"); (js_of_Z 9, "Commander 9"); (js_of_Z 4, "Commander 4") ].
Proof. vm_compute. reflexivity. Qed.

Example schedule_with_blank_multiplier :
  handleScheduleToggle (Some "on") (Some "300") (Some " ")
  = {| TickScheduleUpdate.enabled := true;
       TickScheduleUpdate.interval_seconds := Some (js_of_Z 300);
       TickScheduleUpdate.debug_multiplier := None |}.
Proof. vm_compute. reflexivity. Qed.

(** Posted or not, for a closed state. *)
Ltac posted_by_computation :=
  match goal with
  | |- exists payload, handleSubmit ?parse ?s = Mutate payload =>
      let H := fresh "H" in
      destruct (handleSubmit parse s) as [? | payload |] eqn:H;
      [vm_compute in H; discriminate | eauto | vm_compute in H; discriminate]
  end.

Lemma sample_rest_posts_again :
  exists payload, handleSubmit parse_literals (onSuccess sample_rest) = Mutate payload.
Proof. posted_by_computation. Qed.

Lemma sample_white_assault_posts :
  exists payload, handleSubmit parse_literals sample_white_assault = Mutate payload.
Proof. posted_by_computation. Qed.

Lemma sample_commanded_move_posts :
  exists payload,
    handleSubmit parse_literals (commanderEffect sample_armies [] sample_move)
      = Mutate payload.
Proof. posted_by_computation. Qed.

Lemma commanderOptions_distinct_witness :
  js_strict_eq
    (CommanderOption.id {| CommanderOption.id := js_of_Z 3; CommanderOption.label := "Aelia" |})
    (CommanderOption.id
       {| CommanderOption.id := js_of_Z 4; CommanderOption.label := "Commander 4" |})
  = false.
Proof.
  apply (proj1 (commanderOptions_distinct sample_toString sample_commanders sample_armies)
           0%nat 2%nat).
  - lia.
  - vm_compute. reflexivity.
  - vm_compute. reflexivity.
Defined.

Lemma commanderOptions_covers_witness :
  exists o,
    o ∈ commanderOptions sample_toString sample_commanders sample_armies /\
    js_strict_eq (CommanderOption.id o) (js_of_Z 4) = true.
Proof.
  apply (proj2 (commanderOptions_covers sample_toString sample_commanders sample_armies)
           (sample_army 7 4)).
  - unfold sample_armies. in_literal.
  - reflexivity.
Defined.

Lemma commanderOptions_record_first_witness :
  {| CommanderOption.id := js_of_Z 3; CommanderOption.label := "Aelia" |}
  ∈ commander_pairs sample_commanders.
Proof.
  apply (commanderOptions_record_first sample_toString sample_commanders sample_armies
           _ {| CommanderOption.id := js_of_Z 3; CommanderOption.label := "Aelia" |}).
  - vm_compute. apply list_elem_of_here.
  - vm_compute. apply list_elem_of_here.
  - vm_compute. reflexivity.
Defined.

Lemma selected_army_commands_witness :
  exists payload,
    handleSubmit parse_literals (commanderEffect sample_armies [] sample_move)
      = Mutate payload /\
    OrderCreateRequest.commander_id payload = Some (js_of_Z 3) /\
    same_army_id (Some (js_of_Z 5)) (OrderCreateRequest.army_id payload) = true.
Proof.
  destruct sample_commanded_move_posts as (payload & Hpost).
  exists payload. split; [exact Hpost |].
  exact (selected_army_commands parse_literals sample_armies [] sample_move
           (sample_army 5 3) payload eq_refl Hpost).
Defined.

Lemma armyCardClick_toggles_witness :
  (exists found,
      selectedArmy sample_armies (armyCardClick (sample_army 6 3) (Some (js_of_Z 5)))
        = Some found /\
      same_army_id (ArmySummary.id found) (Some (js_of_Z 6)) = true) /\
  armyCardClick (sample_army 6 3)
    (armyCardClick (sample_army 6 3) (Some (js_of_Z 5))) = None /\
  selectedArmy sample_armies
    (armyCardClick (sample_army 6 3)
       (armyCardClick (sample_army 6 3) (Some (js_of_Z 5)))) = None.
Proof.
  apply (armyCardClick_toggles sample_armies (sample_army 6 3) (js_of_Z 6)
           (Some (js_of_Z 5))).
  - unfold sample_armies. apply list_elem_of_further, list_elem_of_here.
  - reflexivity.
  - reflexivity.
  - vm_compute. reflexivity.
Defined.

Lemma reachable_legs_nonempty_witness : (1 <= length (legs sample_message))%nat.
Proof.
  exact (reachable_legs_nonempty parse_literals sample_message
           (sample_message_reachable parse_literals)).
Defined.

Lemma posted_parameters_keys_witness :
  exists payload definition,
    handleSubmit parse_literals sample_move = Mutate payload /\
    lookup_definition ORDER_DEFINITIONS (OrderCreateRequest.order_type payload)
      = Some definition /\
    forall key,
      is_Some (OrderCreateRequest.parameters payload !! key) ->
      key ∈ map name (fields definition).
Proof.
  destruct sample_move_posts as (payload & Hpost).
  destruct (posted_parameters_keys parse_literals sample_move payload Hpost)
    as (definition & Hd & Hkeys & _).
  exists payload, definition. auto.
Defined.

Lemma required_text_posted_witness :
  exists payload text,
    posts parse_literals payload /\
    OrderCreateRequest.parameters payload !! "content" = Some (VStr text) /\
    is_empty (trim text) = false.
Proof.
  destruct sample_message_posts as (payload & Hpost).
  assert (Hposts : posts parse_literals payload).
  { exists sample_message. split; [apply sample_message_reachable | exact Hpost]. }
  assert (Htype : OrderCreateRequest.order_type payload = "send_message").
  { by apply handleSubmit_posted in Hpost as (_ & _ & _ & _ & _ & -> & _). }
  destruct (find_field def_send_message "content") as [field |] eqn:Hfind;
    [| discriminate].
  pose proof Hfind as [Hin Hname]%find_field_elem.
  destruct (required_text_posted parse_literals payload def_send_message field Hposts)
    as (text & Hlook & Hblank).
  - by rewrite Htype.
  - exact Hin.
  - by injection Hfind as <-.
  - right. right. by injection Hfind as <-.
  - rewrite Hname in Hlook. exists payload, text. auto.
Defined.

Lemma posted_schedule_witness :
  exists payload,
    posts parse_literals payload /\
    OrderCreateRequest.execute_part payload
      ∈ [None; Some "morning"; Some "midday"; Some "evening"; Some "night"].
Proof.
  destruct sample_message_posts as (payload & Hpost).
  assert (Hposts : posts parse_literals payload).
  { exists sample_message. split; [apply sample_message_reachable | exact Hpost]. }
  exists payload. split; [exact Hposts |].
  exact (proj2 (posted_schedule parse_literals payload Hposts)).
Defined.

Lemma onSuccess_starts_over_witness :
  exists payload,
    handleSubmit parse_literals (onSuccess sample_rest) = Mutate payload /\
    OrderCreateRequest.order_type payload <> "move" /\
    OrderCreateRequest.execute_day payload = None /\
    OrderCreateRequest.execute_part payload = None /\
    OrderCreateRequest.priority payload = js_zero.
Proof.
  destruct sample_rest_posts_again as (payload & Hpost).
  exists payload. split; [exact Hpost |].
  exact (onSuccess_starts_over parse_literals sample_rest payload Hpost).
Defined.

Lemma setOrderType_resets_witness :
  orderType (setOrderType "assault" sample_move) = "assault" /\
  error (setOrderType "assault" sample_move) = None /\
  forall key,
    fieldState (setOrderType "assault" sample_move) !! key
    = reset_value <$> find_field def_assault key.
Proof.
  apply (setOrderType_resets sample_move "assault" def_assault).
  - discriminate.
  - reflexivity.
Defined.

Lemma white_number_posted_as_zero_witness :
  exists payload,
    handleSubmit parse_literals sample_white_assault = Mutate payload /\
    OrderCreateRequest.parameters payload !! "stronghold_id" = Some (VNum js_zero).
Proof.
  destruct sample_white_assault_posts as (payload & Hpost).
  exists payload. split; [exact Hpost |].
  destruct (find_field def_assault "stronghold_id") as [field |] eqn:Hfind;
    [| discriminate].
  pose proof Hfind as [Hin Hname]%find_field_elem.
  rewrite <- Hname.
  apply (white_number_posted_as_zero parse_literals sample_white_assault payload
           def_assault field "  " Hpost eq_refl Hin).
  - by injection Hfind as <-.
  - rewrite Hname. vm_compute. reflexivity.
  - discriminate.
  - vm_compute. reflexivity.
Defined.

Lemma failed_request_is_shown_witness :
  exists message,
    request sample_toString (fun _ => inr "Unexpected end of JSON input") sample_failure
      = Rejects message /\
    message <> "" /\
    (Response.text sample_failure <> "" -> message = Response.text sample_failure) /\
    error_paragraph (onError message sample_move) = Some message.
Proof.
  exact (failed_request_is_shown sample_toString
           (fun _ => inr "Unexpected end of JSON input") sample_failure sample_move eq_refl).
Defined.

Lemma posted_selects_on_options_witness :
  exists payload chosen,
    posts parse_literals payload /\
    OrderCreateRequest.parameters payload !! "territory_type" = Some (VStr chosen) /\
    chosen ∈ ["friendly"; "neutral"; "hostile"].
Proof.
  destruct sample_message_posts as (payload & Hpost).
  assert (Hposts : posts parse_literals payload).
  { exists sample_message. split; [apply sample_message_reachable | exact Hpost]. }
  assert (Htype : OrderCreateRequest.order_type payload = "send_message").
  { by apply handleSubmit_posted in Hpost as (_ & _ & _ & _ & _ & -> & _). }
  destruct (find_field def_send_message "territory_type") as [field |] eqn:Hfind;
    [| discriminate].
  pose proof Hfind as [Hin Hname]%find_field_elem.
  destruct (posted_selects_on_options parse_literals payload def_send_message field Hposts)
    as (chosen & Hlook & Hchosen).
  - by rewrite Htype.
  - exact Hin.
  - by injection Hfind as <-.
  - rewrite Hname in Hlook. exists payload, chosen. split; [exact Hposts |].
    split; [exact Hlook |]. by injection Hfind as <-.
Defined.
